(** * Splunk configuration checker: a shallow embedding and its properties

    The development follows [goldenconfig/splunk_config_checker.py].

    Python [str] values are modelled as [string]; a character is read as a
    code point in the range U+0000 to U+00FF.  The [print] calls of the
    source write to the terminal only and are left out, but for the
    warning in the handlers around a file read, where a [print] that
    raises changes what the resolver does. *)

From Stdlib Require Import ZArith NArith Ascii String List Bool Lia.
From Stdlib Require Floats.SpecFloat.
From stdpp Require Import base strings gmap.
Import ListNotations.

Local Open Scope string_scope.
Local Open Scope bool_scope.

(** ** Python string operations *)

Module PyStr.

(** [c.isspace()] on the code points below 256. *)
Definition isspace (c : ascii) : bool :=
  let n := N_of_ascii c in
  ((9 <=? n) && (n <=? 13) || (28 <=? n) && (n <=? 32)
   || (n =? 133) || (n =? 160))%N.

(** Stripping the characters that satisfy [f] from the left end, the
    right end, and both ends. *)
Fixpoint lstrip_by (f : ascii -> bool) (s : string) : string :=
  match s with
  | String c s' => if f c then lstrip_by f s' else s
  | EmptyString => EmptyString
  end.

Fixpoint rstrip_by (f : ascii -> bool) (s : string) : string :=
  match s with
  | String c s' =>
      match rstrip_by f s' with
      | EmptyString => if f c then EmptyString else String c EmptyString
      | r => String c r
      end
  | EmptyString => EmptyString
  end.

Definition strip_by (f : ascii -> bool) (s : string) : string :=
  rstrip_by f (lstrip_by f s).

(** [s.strip()]. *)
Definition strip (s : string) : string := strip_by isspace s.

(** [s.strip(ch)] for a one-character set. *)
Definition strip_char (ch : ascii) (s : string) : string :=
  strip_by (fun c => Ascii.eqb c ch) s.

(** [c.lower()] on the code points below 256: A-Z and the Latin-1
    capitals U+00C0-U+00DE except the multiplication sign U+00D7. *)
Definition lower_char (c : ascii) : ascii :=
  let n := N_of_ascii c in
  if ((65 <=? n) && (n <=? 90)
      || (192 <=? n) && (n <=? 222) && negb (n =? 215))%N
  then ascii_of_N (n + 32) else c.

Fixpoint lower (s : string) : string :=
  match s with
  | String c s' => String (lower_char c) (lower s')
  | EmptyString => EmptyString
  end.

(** [s.startswith(p)]. *)
Fixpoint startswith (s p : string) {struct p} : bool :=
  match p, s with
  | EmptyString, _ => true
  | String a p', String b s' => Ascii.eqb a b && startswith s' p'
  | String _ _, EmptyString => false
  end.

(** [s.endswith(p)]. *)
Fixpoint endswith (s p : string) : bool :=
  if String.eqb s p then true
  else match s with
       | String _ s' => endswith s' p
       | EmptyString => false
       end.

(** [sub in s]. *)
Fixpoint contains (sub s : string) : bool :=
  startswith s sub ||
  match s with
  | String _ s' => contains sub s'
  | EmptyString => false
  end.

(** [s.split(sep)] for a one-character separator. *)
Fixpoint split (sep : ascii) (s : string) : list string :=
  match s with
  | EmptyString => [EmptyString]
  | String c s' =>
      if Ascii.eqb c sep then EmptyString :: split sep s'
      else match split sep s' with
           | h :: t => String c h :: t
           | [] => [String c EmptyString]
           end
  end.

(** [s.split(sep, 1)] when [sep] occurs in [s]: the text before and
    after the first separator; [None] when there is none. *)
Fixpoint split1 (sep : ascii) (s : string) : option (string * string) :=
  match s with
  | EmptyString => None
  | String c s' =>
      if Ascii.eqb c sep then Some (EmptyString, s')
      else match split1 sep s' with
           | Some (l, r) => Some (String c l, r)
           | None => None
           end
  end.

(** [s.split(sep)[0]]. *)
Fixpoint before (sep : ascii) (s : string) : string :=
  match s with
  | EmptyString => EmptyString
  | String c s' => if Ascii.eqb c sep then EmptyString else String c (before sep s')
  end.

(** [sep.join(parts)]. *)
Fixpoint join (sep : string) (parts : list string) : string :=
  match parts with
  | [] => EmptyString
  | [p] => p
  | p :: rest => p ++ sep ++ join sep rest
  end.

(** [s[1:-1]]. *)
Fixpoint drop_last (s : string) : string :=
  match s with
  | EmptyString => EmptyString
  | String _ EmptyString => EmptyString
  | String c s' => String c (drop_last s')
  end.

Definition slice_1_m1 (s : string) : string :=
  match s with
  | EmptyString => EmptyString
  | String _ s' => drop_last s'
  end.

(** [s.replace(old, "")] for a non-empty [old]: the occurrences are
    found from the left and do not overlap.  [skip] counts the
    characters of the current occurrence still to be dropped. *)
Fixpoint remove_from (old : string) (skip : nat) (s : string) : string :=
  match s with
  | EmptyString => EmptyString
  | String c s' =>
      match skip with
      | S k => remove_from old k s'
      | O =>
          if startswith s old
          then remove_from old (String.length old - 1) s'
          else String c (remove_from old 0 s')
      end
  end.

Definition remove_all (old s : string) : string := remove_from old 0 s.

(** Truth value of a [str]: non-empty. *)
Definition truthy (s : string) : bool := negb (String.eqb s EmptyString).

End PyStr.

Import PyStr.

(** ** Python numeric conversions of strings *)

Module PyNum.

Definition digit_value (c : ascii) : option Z :=
  let n := N_of_ascii c in
  if ((48 <=? n) && (n <=? 57))%N then Some (Z.of_N (n - 48)) else None.

(** The tail of [digitpart ::= digit (["_"] digit)*]: the value read so
    far, the number of digits read so far, and the text left over. *)
Fixpoint digits_rest (acc : Z) (n : nat) (s : string) : Z * nat * string :=
  match s with
  | String c s1 =>
      match digit_value c with
      | Some d => digits_rest (10 * acc + d) (S n) s1
      | None =>
          if Ascii.eqb c "_" then
            match s1 with
            | String c2 s2 =>
                match digit_value c2 with
                | Some d => digits_rest (10 * acc + d) (S n) s2
                | None => (acc, n, s)
                end
            | EmptyString => (acc, n, s)
            end
          else (acc, n, s)
      end
  | EmptyString => (acc, n, s)
  end.

(** A [digitpart] whose digits continue the decimal numeral [acc]. *)
Definition digitpart_acc (acc : Z) (s : string) : option (Z * nat * string) :=
  match s with
  | String c s1 =>
      match digit_value c with
      | Some d => Some (digits_rest (10 * acc + d) 1 s1)
      | None => None
      end
  | EmptyString => None
  end.

Definition digitpart : string -> option (Z * nat * string) := digitpart_acc 0.

(** The whitespace that [int] and [float] allow around a numeral: the
    ASCII characters tab to carriage return and space, and the
    whitespace code points above 127.  The separators U+001C-U+001F,
    which [str.strip] removes, are not among them. *)
Definition isspace_numeral (c : ascii) : bool :=
  let n := N_of_ascii c in
  ((9 <=? n) && (n <=? 13) || (n =? 32) || (n =? 133) || (n =? 160))%N.

Definition strip_numeral (s : string) : string := strip_by isspace_numeral s.

Definition sign (s : string) : bool * string :=
  match s with
  | String c s' =>
      if Ascii.eqb c "-" then (true, s')
      else if Ascii.eqb c "+" then (false, s')
      else (false, s)
  | EmptyString => (false, s)
  end.

(** [sys.get_int_max_str_digits()] as the interpreter starts: a decimal
    numeral with more digits than this is refused by [int]; the sign and
    the underscores do not count, leading zeros do. *)
Definition int_max_str_digits : nat := 4300.

(** [int(s)]: surrounding whitespace, an optional sign, decimal digits
    with single underscores between them, at most [int_max_str_digits]
    digits.  [None] is [ValueError]. *)
Definition int (s : string) : option Z :=
  let (neg, s1) := sign (strip_numeral s) in
  match digitpart s1 with
  | Some (v, n, EmptyString) =>
      if (n <=? int_max_str_digits)%nat
      then Some (if neg then (- v)%Z else v)
      else None
  | _ => None
  end.

(** Python floats are IEEE 754 binary64 numbers. *)
Definition float : Type := SpecFloat.spec_float.
Definition prec : Z := 53.
Definition emax : Z := 1024.

(** The binary64 number nearest to [m * 10^e10] (ties to even), with
    the sign [neg]; out of range gives an infinity. *)
Definition of_decimal (neg : bool) (m e10 : Z) : float :=
  match m with
  | Zpos p =>
      if (0 <=? e10)%Z
      then SpecFloat.binary_round prec emax neg (Z.to_pos (Zpos p * 10 ^ e10)) 0
      else SpecFloat.SFdiv prec emax
             (SpecFloat.S754_finite neg p 0)
             (SpecFloat.S754_finite false (Z.to_pos (10 ^ (- e10))) 0)
  | _ => SpecFloat.S754_zero neg
  end.

(** [number ::= [digitpart] "." digitpart | digitpart ["."]]: all the
    digits as one integer, the number of digits after the point, and
    the text left over. *)
Definition number (s : string) : option (Z * nat * string) :=
  match digitpart s with
  | Some (i, _, r) =>
      match r with
      | String c r1 =>
          if Ascii.eqb c "." then
            match digitpart_acc i r1 with
            | Some (m, k, r2) => Some (m, k, r2)
            | None => Some (i, O, r1)
            end
          else Some (i, O, r)
      | EmptyString => Some (i, O, r)
      end
  | None =>
      match s with
      | String c r1 => if Ascii.eqb c "." then digitpart r1 else None
      | EmptyString => None
      end
  end.

(** [[exponent]] up to the end of the text:
    [exponent ::= ("e" | "E") [sign] digitpart]. *)
Definition exponent (s : string) : option Z :=
  match s with
  | EmptyString => Some 0%Z
  | String c r =>
      if Ascii.eqb c "e" || Ascii.eqb c "E" then
        let (neg, r1) := sign r in
        match digitpart r1 with
        | Some (v, _, EmptyString) => Some (if neg then (- v)%Z else v)
        | _ => None
        end
      else None
  end.

(** [float(s)]: surrounding whitespace, an optional sign, then
    [inf], [infinity] or [nan] in any letter case, or a decimal numeral
    with an optional exponent.  [None] is [ValueError]. *)
Definition to_float (s : string) : option float :=
  let (neg, r) := sign (strip_numeral s) in
  let w := lower r in
  if String.eqb w "inf" || String.eqb w "infinity"
  then Some (SpecFloat.S754_infinity neg)
  else if String.eqb w "nan" then Some SpecFloat.S754_nan
  else
    match number r with
    | Some (m, k, r1) =>
        match exponent r1 with
        | Some e => Some (of_decimal neg m (e - Z.of_nat k))
        | None => None
        end
    | None => None
    end.

(** [x == y] on floats. *)
Definition float_eq (x y : float) : bool := SpecFloat.SFeqb x y.

End PyNum.

(** ** Data model *)

Inductive SplunkRole : Type :=
| SEARCH_HEAD
| INDEXER
| CLUSTER_MANAGER
| SHC_DEPLOYER
| HTTP_EVENT_COLLECTOR.

#[global] Instance SplunkRole_eq_dec : EqDecision SplunkRole.
Proof. solve_decision. Defined.

Definition role_value (r : SplunkRole) : string :=
  match r with
  | SEARCH_HEAD => "search-head"
  | INDEXER => "indexer"
  | CLUSTER_MANAGER => "cluster-manager"
  | SHC_DEPLOYER => "shc-deployer"
  | HTTP_EVENT_COLLECTOR => "http-event-collector"
  end.

Record ConfigCheck : Type := mkConfigCheck {
  config_file : string;
  stanza : string;
  setting : string;
  expected_value : string;
  actual_value : option string;
  status : string;
  role : option SplunkRole
}.

(** The dataclass defaults: no actual value, status [UNKNOWN]. *)
Definition new_check (f st k v : string) (r : SplunkRole) : ConfigCheck :=
  mkConfigCheck f st k v None "UNKNOWN" (Some r).

Definition set_actual_value (c : ConfigCheck) (a : option string) : ConfigCheck :=
  mkConfigCheck (config_file c) (stanza c) (setting c) (expected_value c)
    a (status c) (role c).

Definition set_status (c : ConfigCheck) (s : string) : ConfigCheck :=
  mkConfigCheck (config_file c) (stanza c) (setting c) (expected_value c)
    (actual_value c) s (role c).

Definition newline : ascii := "010"%char.
Definition nl : string := String newline EmptyString.

(** Truth value of an [Optional[str]]. *)
Definition opt_truthy (o : option string) : bool :=
  match o with
  | Some s => truthy s
  | None => false
  end.

(** ** Golden document parser *)

Definition role_markers : list (string * SplunkRole) :=
  [ ("SEARCH HEADS", SEARCH_HEAD);
    ("INDEXERS", INDEXER);
    ("CLUSTER MANAGER", CLUSTER_MANAGER);
    ("SHC DEPLOYER", SHC_DEPLOYER);
    ("HTTP EVENT COLLECTOR RECEVIER INSTANCE", HTTP_EVENT_COLLECTOR) ].

(** The inner [for marker, role in role_markers.items()] loop with its
    [break]: the role of the first marker whose begin text is in [line]. *)
Fixpoint find_begin (markers : list (string * SplunkRole)) (line : string)
  : option SplunkRole :=
  match markers with
  | [] => None
  | (marker, r) :: rest =>
      if contains ("###BEGIN " ++ marker ++ "###") line then Some r
      else find_begin rest line
  end.

(** [d[k] = v] on a dict, which keeps its keys in insertion order. *)
Fixpoint dict_set {V : Type} (d : list (SplunkRole * V)) (k : SplunkRole) (v : V)
  : list (SplunkRole * V) :=
  match d with
  | [] => [(k, v)]
  | (k', v') :: rest =>
      if decide (k' = k) then (k, v) :: rest else (k', v') :: dict_set rest k v
  end.

Record SplitState : Type := mkSplitState {
  sections : list (SplunkRole * string);
  current_role : option SplunkRole;
  current_section : list string
}.

(** One iteration of the loop of [_split_by_roles].  The two statements
    [if current_role not in sections: sections[current_role] = []] and
    [sections[current_role] = join] together are one [dict_set]. *)
Definition split_step (st : SplitState) (line0 : string) : SplitState :=
  let line := strip line0 in
  let st1 :=
    match find_begin role_markers line with
    | Some r => mkSplitState (sections st) (Some r) []
    | None => st
    end in
  match current_role st1 with
  | Some r =>
      if contains "###END" line then
        mkSplitState (dict_set (sections st1) r (join nl (current_section st1)))
          None []
      else if truthy line then
        mkSplitState (sections st1) (Some r) (current_section st1 ++ [line])%list
      else st1
  | None => st1
  end.

Definition split_lines (lines : list string) : SplitState :=
  fold_left split_step lines (mkSplitState [] None []).

Definition _split_by_roles (content : string) : list (SplunkRole * string) :=
  sections (split_lines (split newline content)).

(** The loop state of [_parse_role_section]: the current config file,
    the current stanza and [self.config_checks]. *)
Definition ParseState : Type := option string * option string * list ConfigCheck.

Definition parse_role_step (r : SplunkRole) (st : ParseState) (line0 : string)
  : ParseState :=
  let '(current_config_file, current_stanza, checks) := st in
  let line := strip line0 in
  if negb (truthy line) || startswith line "#" then st
  else if startswith line "###" && endswith line "###" && contains ".conf" line
  then (Some (strip (strip_char "#" line)), current_stanza, checks)
  else if startswith line "[" && endswith line "]"
  then (current_config_file, Some (slice_1_m1 line), checks)
  else if contains "=" line && opt_truthy current_config_file
          && opt_truthy current_stanza
  then
    match split1 "=" line, current_config_file, current_stanza with
    | Some (k, v), Some f, Some sz =>
        let k := strip k in
        let v := strip v in
        let v := if contains "#" v then strip (before "#" v) else v in
        if negb (truthy v) then st
        else (current_config_file, current_stanza, (checks ++ [new_check f sz k v r])%list)
    | _, _, _ => st
    end
  else st.

Definition _parse_role_section (r : SplunkRole) (section_content : string)
  (checks : list ConfigCheck) : list ConfigCheck :=
  snd (fold_left (parse_role_step r) (split newline section_content)
         (None, None, checks)).

Inductive exception : Type :=
| FileNotFound
| Uncaught.

Inductive result (A : Type) : Type :=
| Ok (a : A)
| Raise (e : exception).
Arguments Ok {A} a.
Arguments Raise {A} e.

(** The body of [parse_config_file] once the document is read. *)
Definition parse_document (content : string) (checks : list ConfigCheck)
  : list ConfigCheck :=
  fold_left (fun cs '(r, section_content) => _parse_role_section r section_content cs)
    (_split_by_roles content) checks.

(** [parse_config_file]: [document] is the text at [config_file_path],
    [None] when the path does not exist. *)
Definition parse_config_file (document : option string) (checks : list ConfigCheck)
  : result (list ConfigCheck) :=
  match document with
  | None => Raise FileNotFound
  | Some content => Ok (parse_document content checks)
  end.

(** ** Backend resolvers *)

Inductive RunOutcome : Type :=
| Completed (returncode : Z) (stdout stderr : string)
| TimeoutExpired
| CalledProcessError
| FileNotFoundError
| OtherException.

(** What a backend call can observe of the machine. *)
Record World : Type := mkWorld {
  subprocess_run : list string -> RunOutcome;
  glob_glob : string -> list string;
  (** [os.path.exists(p) and os.access(p, os.R_OK)] *)
  readable : string -> bool;
  (** [open(p).read()]; [None] when it raises *)
  read_text : string -> option string;
  (** the [(root, files)] of [os.walk(top)], in its order *)
  os_walk : string -> list (string * list string);
  (** whether the [print] of the warning about a file that could not be
      read raises itself (the terminal cannot encode the path) *)
  warning_fails : string -> bool
}.

(** The fields of the checker that the resolvers read. *)
Record Checker : Type := mkChecker {
  diag_mode : bool;
  diag_temp_dir : string;
  splunk_home : string;
  btool_path : string
}.

(** [os.path.join] on POSIX. *)
Definition path_join2 (a b : string) : string :=
  if startswith b "/" then b
  else if negb (truthy a) || endswith a "/" then a ++ b
  else a ++ "/" ++ b.

Definition path_join (a : string) (parts : list string) : string :=
  fold_left path_join2 parts a.

Definition alt_config_patterns (self : Checker) (config_file : string)
  : list string :=
  let conf := config_file ++ ".conf" in
  [ path_join (splunk_home self) ["etc"; "system"; "local"; conf];
    path_join (splunk_home self) ["etc"; "system"; "default"; conf];
    path_join (splunk_home self) ["etc"; "apps"; "*"; "local"; conf];
    path_join (splunk_home self) ["etc"; "apps"; "*"; "default"; conf] ].

Definition alt_config_paths (w : World) (self : Checker) (config_file : string)
  : list string :=
  flat_map (glob_glob w) (alt_config_patterns self config_file).

(** The [except Exception] handler around a read prints a warning that
    names the file.  Nothing guards that [print]: when it raises, the
    exception leaves the resolver. *)
Definition warning_raises (w : World) (config_path : string) : bool :=
  readable w config_path
  && match read_text w config_path with
     | Some _ => false
     | None => warning_fails w config_path
     end.

(** What the direct read adds to [combined_content] for one file. *)
Definition alt_entry (w : World) (config_path : string) : list string :=
  if readable w config_path then
    match read_text w config_path with
    | Some content => ["# From: " ++ config_path; content]
    | None => []
    end
  else [].

(** The text that [_try_alternative_config_access] returns when no
    warning raises; [alt_raises] tells when one does. *)
Definition _try_alternative_config_access (w : World) (self : Checker)
  (config_file : string) : string :=
  join nl (flat_map (alt_entry w) (alt_config_paths w self config_file)).

Definition diag_config_paths (w : World) (self : Checker) (config_file : string)
  : list string :=
  flat_map (fun '(root, files) =>
    flat_map (fun file =>
      if String.eqb file (config_file ++ ".conf") then [path_join2 root file] else [])
      files) (os_walk w (diag_temp_dir self)).

Definition alt_raises (w : World) (self : Checker) (config_file : string) : bool :=
  existsb (warning_raises w) (alt_config_paths w self config_file).

(** What the archive read adds to [combined_content] for one file. *)
Definition diag_entry (w : World) (config_path : string) : list string :=
  if readable w config_path then
    match read_text w config_path with
    | Some content => ["# From: " ++ config_path; content; ""]
    | None => []
    end
  else [].

(** The text that [_read_config_from_diag] returns when no warning
    raises; [diag_raises] tells when one does. *)
Definition _read_config_from_diag (w : World) (self : Checker)
  (config_file : string) : string :=
  join nl (flat_map (diag_entry w) (diag_config_paths w self config_file)).

Definition diag_raises (w : World) (self : Checker) (config_file : string) : bool :=
  existsb (warning_raises w) (diag_config_paths w self config_file).

Definition btool_cmd (self : Checker) (config_file stanza : string) : list string :=
  ([btool_path self; "btool"; config_file; "list"]
     ++ (if truthy stanza then [stanza] else []))%list.

Definition run_btool_command (w : World) (self : Checker)
  (config_file stanza : string) : result string :=
  if diag_mode self then
    if diag_raises w self config_file then Raise Uncaught
    else Ok (_read_config_from_diag w self config_file)
  else
    match subprocess_run w (btool_cmd self config_file stanza) with
    | Completed returncode stdout stderr =>
        if (returncode =? 0)%Z then Ok (strip stdout)
        else if contains "Permission denied" stderr || contains "cannot access" stderr
        then
          if alt_raises w self config_file then Raise Uncaught
          else Ok (_try_alternative_config_access w self config_file)
        else Ok ""
    | TimeoutExpired => Ok ""
    | CalledProcessError => Ok ""
    | FileNotFoundError => Ok ""
    | OtherException => Raise Uncaught
    end.

(** ** Stanza text parser *)

Definition stanza_is (current_stanza : option string) (target_stanza : string) : bool :=
  match current_stanza with
  | Some c => String.eqb c target_stanza
  | None => false
  end.

(** The loop of [parse_btool_output] from the state [current_stanza]
    over the lines still to be read; [Some] is the early [return]. *)
Fixpoint btool_scan (target_stanza target_setting : string)
  (current_stanza : option string) (lines : list string) : option string :=
  match lines with
  | [] => None
  | line0 :: rest =>
      let line := strip line0 in
      if negb (truthy line) || startswith line "#"
      then btool_scan target_stanza target_setting current_stanza rest
      else if startswith line "[" && endswith line "]"
      then btool_scan target_stanza target_setting (Some (slice_1_m1 line)) rest
      else if stanza_is current_stanza target_stanza && contains "=" line
      then
        match split1 "=" line with
        | Some (k, v) =>
            if String.eqb (strip k) target_setting then Some (strip v)
            else btool_scan target_stanza target_setting current_stanza rest
        | None => btool_scan target_stanza target_setting current_stanza rest
        end
      else btool_scan target_stanza target_setting current_stanza rest
  end.

Definition parse_btool_output (output target_stanza target_setting : string)
  : option string :=
  btool_scan target_stanza target_setting None (split newline output).

(** ** Value comparator *)

Definition is_keyword (s : string) : bool :=
  existsb (String.eqb s) ["auto"; "true"; "false"].

(** The [try] block of [_compare_values]: [None] when [float] or [int]
    raises [ValueError]. *)
Definition numeric_compare (actual expected : string) : option bool :=
  if contains "." actual || contains "." expected then
    match PyNum.to_float actual with
    | Some fa =>
        match PyNum.to_float expected with
        | Some fe => Some (PyNum.float_eq fa fe)
        | None => None
        end
    | None => None
    end
  else
    match PyNum.int actual with
    | Some ia =>
        match PyNum.int expected with
        | Some ie => Some (ia =? ie)%Z
        | None => None
        end
    | None => None
    end.

Definition _compare_values (actual expected : string) : bool :=
  if is_keyword (lower expected) then String.eqb (lower actual) (lower expected)
  else
    match numeric_compare actual expected with
    | Some b => b
    | None => String.eqb (strip actual) (strip expected)
    end.

(** ** Check engine *)

(** [check.config_file.replace('.conf', '')]. *)
Definition config_base (check : ConfigCheck) : string :=
  remove_all ".conf" (config_file check).

(** The status assignment once the backend has answered. *)
Definition judge (check : ConfigCheck) (btool_output : string) : ConfigCheck :=
  if truthy btool_output then
    let actual := parse_btool_output btool_output (stanza check) (setting check) in
    let check := set_actual_value check actual in
    match actual with
    | None => set_status check "MISSING"
    | Some a =>
        if _compare_values a (expected_value check)
        then set_status check "OK"
        else set_status check "MISMATCH"
    end
  else set_status check "ERROR".

(** One iteration of the loop of [check_configurations]. *)
Definition check_one (w : World) (self : Checker) (check : ConfigCheck)
  : result ConfigCheck :=
  match run_btool_command w self (config_base check) (stanza check) with
  | Ok btool_output => Ok (judge check btool_output)
  | Raise e => Raise e
  end.

(** [check_configurations] from the [i]-th backend call on: [env i] is the
    machine as the [i]-th call sees it.  The checks are updated in place,
    so an exception leaves the list with the checks done so far.  The
    result is the final [self.config_checks] and the exception, if any. *)
Fixpoint check_from (env : nat -> World) (self : Checker) (i : nat)
  (checks : list ConfigCheck) : list ConfigCheck * option exception :=
  match checks with
  | [] => ([], None)
  | check :: rest =>
      match check_one (env i) self check with
      | Ok check' =>
          let (rest', e) := check_from env self (S i) rest in
          (check' :: rest', e)
      | Raise e => (check :: rest, Some e)
      end
  end.

Definition check_configurations (env : nat -> World) (self : Checker)
  (config_checks : list ConfigCheck) : list ConfigCheck * option exception :=
  check_from env self 0 config_checks.

(** ** Summary *)

Definition summary_keys : list string :=
  ["OK"; "MISMATCH"; "MISSING"; "ERROR"; "UNKNOWN"].

Definition summary_init : gmap string nat :=
  fold_right (fun k m => insert k 0 m) empty summary_keys.

Definition summary_step (summary : gmap string nat) (check : ConfigCheck)
  : gmap string nat :=
  match lookup (status check) summary with
  | Some n => insert (status check) (S n) summary
  | None => summary
  end.

Definition _get_summary (config_checks : list ConfigCheck) : gmap string nat :=
  fold_left summary_step config_checks summary_init.

Definition count_of (summary : gmap string nat) (k : string) : nat :=
  default 0 (lookup k summary).

(** ** Properties in the words of the specification *)

(** A line that extraction skips: blank, or a comment. *)
Definition is_skipped (line0 : string) : bool :=
  negb (truthy (strip line0)) || startswith (strip line0) "#".

(** A line wrapped in brackets. *)
Definition is_stanza_header (line0 : string) : bool :=
  negb (is_skipped line0)
  && startswith (strip line0) "[" && endswith (strip line0) "]".

(** The stanza that the lines [pre] leave current: the name in the last
    header line among them. *)
Definition stanza_in_effect (pre : list string) : option string :=
  match find is_stanza_header (rev pre) with
  | Some h => Some (slice_1_m1 (strip h))
  | None => None
  end.

(** The two sides of a line split at its first [=], trimmed. *)
Definition sides (line0 : string) : option (string * string) :=
  match split1 "=" (strip line0) with
  | Some (k, v) => Some (strip k, strip v)
  | None => None
  end.

(** [line0], which comes after the lines [pre], is a line inside the
    target stanza that contains [=] and whose left side is the target
    setting. *)
Definition is_hit (target_stanza target_setting : string) (pre : list string)
  (line0 : string) : bool :=
  negb (is_skipped line0) && negb (is_stanza_header line0)
  && stanza_is (stanza_in_effect pre) target_stanza
  && contains "=" (strip line0)
  && match sides line0 with
     | Some (k, _) => String.eqb k target_setting
     | None => false
     end.

(** The golden document of the scenario of the specification. *)
Definition scenario_document : string :=
  join nl
    [ "###BEGIN SEARCH HEADS###";
      "###server.conf###";
      "[httpServer]";
      "busyKeepAliveIdleTimeout = 120";
      "###END SEARCH HEADS###" ].

(** The golden document of [create_test_config] in [test_checker.py]. *)
Definition test_config : string :=
  join nl
    [ "###BEGIN SEARCH HEADS###";
      "";
      "###server.conf###";
      "[httpServer]";
      "busyKeepAliveIdleTimeout = 120";
      "streamInWriteTimeout = 30";
      "";
      "[sslConfig]";
      "useClientSSLCompression = false";
      "";
      "###limits.conf###";
      "[search]";
      "remote_timeline_connection_timeout = 30";
      "";
      "###END SEARCH HEADS###";
      "";
      "###BEGIN INDEXERS###";
      "";
      "###server.conf###";
      "[clustering]";
      "heartbeat_period = 10";
      "cxn_timeout = 300";
      "";
      "###END INDEXERS###" ].

(** A text without a line break. *)
Definition one_line (s : string) : bool := negb (contains nl s).

(** Where a list of lines may go on after an unfinished role block:
    nowhere, or with a line that begins a role. *)
Definition ends_or_begins (rest : list string) : Prop :=
  match rest with
  | [] => True
  | b :: _ => find_begin role_markers (strip b) <> None
  end.

(** A document for the unfinished-block property: a role block that is
    never ended, followed by a complete block. *)
Definition unfinished_block : list string :=
  ["###server.conf###"; "[httpServer]"; "busyKeepAliveIdleTimeout = 120"].

Definition following_block : list string :=
  ["###BEGIN INDEXERS###"; "###server.conf###"; "[clustering]";
   "heartbeat_period = 10"; "###END INDEXERS###"].

(** The lines of a file that a resolver has read, without the source
    path line that the resolver puts before them. *)
Definition content_lines (w : World) (blank_after : bool) (config_path : string)
  : list string :=
  if readable w config_path then
    match read_text w config_path with
    | Some content =>
        (split newline content ++ (if blank_after then [""] else []))%list
    | None => []
    end
  else [].

(** A raw text with two stanzas that set the same key. *)
Definition sample_output : string :=
  join nl
    [ "# From: /opt/splunk/etc/system/local/server.conf";
      "[general]";
      "busyKeepAliveIdleTimeout = 5";
      "";
      "[httpServer]";
      "busyKeepAliveIdleTimeout = 60";
      "busyKeepAliveIdleTimeout = 70" ].

(** An extracted archive with one [server.conf]. *)
Definition sample_archive : World :=
  mkWorld
    (fun _ => FileNotFoundError)
    (fun _ => [])
    (fun _ => true)
    (fun _ => Some (join nl ["[httpServer]"; "busyKeepAliveIdleTimeout = 60"; ""]))
    (fun _ => [("/tmp/splunk_diag_x/etc/system/local", ["server.conf"; "web.conf"])])
    (fun _ => false).

Definition archive_checker : Checker :=
  mkChecker true "/tmp/splunk_diag_x" "/tmp/splunk_diag_x" "".

(** The fields that a check result takes over from its expectation. *)
Definition same_expectation (c c' : ConfigCheck) : Prop :=
  role c' = role c
  /\ config_file c' = config_file c
  /\ stanza c' = stanza c
  /\ setting c' = setting c
  /\ expected_value c' = expected_value c.

(** An expectation for a config file whose name has [.conf] inside. *)
Definition inner_conf_check : ConfigCheck :=
  new_check "app.config.conf" "general" "timeout" "30" SEARCH_HEAD.

Definition live_checker : Checker :=
  mkChecker false "" "/opt/splunk" "/opt/splunk/bin/splunk".


(** The sum of the five counts of a summary. *)
Definition summary_total (summary : gmap string nat) : nat :=
  count_of summary "OK" + count_of summary "MISMATCH"
  + count_of summary "MISSING" + count_of summary "ERROR"
  + count_of summary "UNKNOWN".


Definition server_check : ConfigCheck :=
  new_check "server.conf" "httpServer" "busyKeepAliveIdleTimeout" "120" SEARCH_HEAD.

(** A golden document in which the role [SEARCH HEADS] is begun and
    ended twice. *)
Definition repeated_role_document : string :=
  join nl
    [ "###BEGIN SEARCH HEADS###";
      "###server.conf###";
      "[httpServer]";
      "busyKeepAliveIdleTimeout = 120";
      "###END SEARCH HEADS###";
      "###BEGIN INDEXERS###";
      "###server.conf###";
      "[clustering]";
      "heartbeat_period = 10";
      "###END INDEXERS###";
      "###BEGIN SEARCH HEADS###";
      "###limits.conf###";
      "[search]";
      "remote_timeline_connection_timeout = 30";
      "###END SEARCH HEADS###" ].

(** [c * n]. *)
Fixpoint repeated (c : ascii) (n : nat) : string :=
  match n with
  | O => EmptyString
  | S k => String c (repeated c k)
  end.

(** A decimal numeral with one digit more than [int] takes. *)
Definition long_numeral : string := repeated "1" 4301.

(** The cases of [test_value_comparison] in [test_checker.py]: actual,
    expected, and whether they should match. *)
Definition comparison_cases : list (string * string * bool) :=
  [ ("120", "120", true);
    ("true", "True", true);
    ("false", "FALSE", true);
    ("auto", "AUTO", true);
    ("30", "30.0", true);
    ("100", "200", false);
    ("test", "different", false) ].

(** An extracted archive in which a directory name has line breaks. *)
Definition line_break_archive : World :=
  mkWorld
    (fun _ => FileNotFoundError)
    (fun _ => [])
    (fun _ => true)
    (fun _ => Some (join nl ["[general]"; "serverName = a"]))
    (fun _ =>
       [ (join nl ["/tmp/splunk_diag_x/d"; "[httpServer]";
                   "busyKeepAliveIdleTimeout = 1"; ""],
          ["server.conf"]) ])
    (fun _ => false).

(** ** Further definitions: role blocks of a golden document *)

(** A line that begins no role, and a line that contains the end text. *)
Definition no_begin (line0 : string) : bool :=
  match find_begin role_markers (strip line0) with
  | None => true
  | Some _ => false
  end.

Definition has_end (line0 : string) : bool := contains "###END" (strip line0).

(** A complete role block as it stands in a document: the lines before
    it that belong to no block, the line that begins the role, the lines
    inside, and the line that ends it. *)
Record RoleBlock : Type := mkRoleBlock {
  rb_before : list string;
  rb_role : SplunkRole;
  rb_begin : string;
  rb_body : list string;
  rb_end : string
}.

Definition block_lines (b : RoleBlock) : list string :=
  (rb_before b ++ rb_begin b :: rb_body b ++ [rb_end b])%list.

Definition block_ok (b : RoleBlock) : bool :=
  forallb no_begin (rb_before b)
  && bool_decide (find_begin role_markers (strip (rb_begin b)) = Some (rb_role b))
  && negb (has_end (rb_begin b))
  && forallb (fun l => no_begin l && negb (has_end l)) (rb_body b)
  && no_begin (rb_end b) && has_end (rb_end b).

(** The trimmed, non-empty lines of a block, begin line included. *)
Definition kept_lines (lines : list string) : list string :=
  List.filter truthy (map strip lines).

Definition block_section (b : RoleBlock) : string :=
  join nl (kept_lines (rb_begin b :: rb_body b)).

(** The text is empty or starts with a character that stripping by [f]
    keeps. *)
Definition head_kept (f : ascii -> bool) (s : string) : Prop :=
  match s with
  | String c _ => f c = false
  | EmptyString => True
  end.

(** A trimmed, non-empty line without a line break. *)
Definition clean_line (l : string) : Prop :=
  l <> "" /\ strip l = l /\ one_line l = true.

(** The texts in the state: every pending line is clean and every
    section is clean lines joined. *)
Definition clean_state (st : SplitState) : Prop :=
  Forall clean_line (current_section st)
  /\ Forall (fun rs => exists ls, snd rs = join nl ls /\ Forall clean_line ls)
       (sections st).

(** Two complete blocks, and the same role once more. *)
Definition search_heads_block : RoleBlock :=
  mkRoleBlock ["# golden values"; ""] SEARCH_HEAD "###BEGIN SEARCH HEADS###"
    ["###server.conf###"; "  [httpServer]"; ""; "busyKeepAliveIdleTimeout = 120"]
    "###END SEARCH HEADS###".

Definition indexers_block : RoleBlock :=
  mkRoleBlock [""] INDEXER "###BEGIN INDEXERS###"
    ["###server.conf###"; "[clustering]"; "heartbeat_period = 10"]
    "###END SEARCH HEADS###".

Definition search_heads_again : RoleBlock :=
  mkRoleBlock [] SEARCH_HEAD "###BEGIN SEARCH HEADS###"
    ["###limits.conf###"; "[search]"; "remote_timeline_connection_timeout = 30"]
    "###END###".

(** ** Further definitions: floats that are numbers *)

Definition is_nan (x : PyNum.float) : bool :=
  match x with
  | SpecFloat.S754_nan => true
  | _ => false
  end.

(** ** Further definitions: check results *)

(** The statuses that a check pass assigns. *)
Definition assigned_statuses : list string :=
  ["OK"; "MISMATCH"; "MISSING"; "ERROR"].

(** The number of checks with the status [k]. *)
Definition count_status (k : string) (checks : list ConfigCheck) : nat :=
  length (List.filter (fun c => String.eqb (status c) k) checks).

(** [c'] is [c] after its status assignment for some backend answer. *)
Definition judged (c c' : ConfigCheck) : Prop :=
  exists btool_output, c' = judge c btool_output.

(** The test of [_print_table_results] for printing the expected and
    the actual value under a row. *)
Definition shows_values (check : ConfigCheck) : bool :=
  existsb (String.eqb (status check)) ["MISMATCH"; "MISSING"]
  && match actual_value check with
     | Some _ => true
     | None => false
     end.

(** A live machine whose tool runs well and prints only blanks, and one
    whose tool cannot be started for a reason that is not caught. *)
Definition silent_world : World :=
  mkWorld (fun _ => Completed 0 "  " "") (fun _ => []) (fun _ => false)
    (fun _ => None) (fun _ => [])
    (fun _ => false).

Definition broken_world : World :=
  mkWorld (fun _ => OtherException) (fun _ => []) (fun _ => false)
    (fun _ => None) (fun _ => [])
    (fun _ => false).

(** The archive resolver sees [sample_archive] at every call; a live
    pass sees a silent tool first and a broken one from then on. *)
Definition archive_env : nat -> World := fun _ => sample_archive.

Definition breaking_env : nat -> World :=
  fun i => match i with O => silent_world | S _ => broken_world end.

Definition limits_check : ConfigCheck :=
  new_check "limits.conf" "search" "remote_timeline_connection_timeout" "30"
    SEARCH_HEAD.

Definition timeout_60_check : ConfigCheck :=
  new_check "server.conf" "httpServer" "busyKeepAliveIdleTimeout" "60" INDEXER.

(** ** Further definitions: reporting *)

(** [check.role.value if check.role else "unknown"]. *)
Definition role_name (check : ConfigCheck) : string :=
  match role check with
  | Some r => role_value r
  | None => "unknown"
  end.

(** The two statements [if role_name not in by_role: by_role[role_name] = []]
    and [by_role[role_name].append(check)] of [_print_table_results], on
    a dict that keeps its keys in insertion order. *)
Fixpoint group_add (by_role : list (string * list ConfigCheck)) (name : string)
  (check : ConfigCheck) : list (string * list ConfigCheck) :=
  match by_role with
  | [] => [(name, [check])]
  | (n, cs) :: rest =>
      if String.eqb n name then (n, (cs ++ [check])%list) :: rest
      else (n, cs) :: group_add rest name check
  end.

(** The dict [by_role] that [_print_table_results] builds. *)
Definition group_by_role (config_checks : list ConfigCheck)
  : list (string * list ConfigCheck) :=
  fold_left (fun by_role check => group_add by_role (role_name check) check)
    config_checks [].

(** [by_role[name]], [None] when the key is absent. *)
Fixpoint group_of (name : string) (by_role : list (string * list ConfigCheck))
  : option (list ConfigCheck) :=
  match by_role with
  | [] => None
  | (n, cs) :: rest => if String.eqb n name then Some cs else group_of name rest
  end.

(** The checks with the role name [name], in their order. *)
Definition checks_named (name : string) (config_checks : list ConfigCheck)
  : list ConfigCheck :=
  List.filter (fun c => String.eqb (role_name c) name) config_checks.

(** The dict that [_print_json_results] builds for one check; [None] is
    the JSON [null]. *)
Definition json_record (check : ConfigCheck) : list (string * option string) :=
  [ ("role", option_map role_value (role check));
    ("config_file", Some (config_file check));
    ("stanza", Some (stanza check));
    ("setting", Some (setting check));
    ("expected_value", Some (expected_value check));
    ("actual_value", actual_value check);
    ("status", Some (status check)) ].

(** [x or ''] for an [Optional[str]]. *)
Definition or_empty (o : option string) : string :=
  match o with
  | Some s => if truthy s then s else ""
  | None => ""
  end.

(** The row that [_print_csv_results] writes for one check. *)
Definition csv_row (check : ConfigCheck) : list string :=
  [ match role check with Some r => role_value r | None => "" end;
    config_file check;
    stanza check;
    setting check;
    expected_value check;
    or_empty (actual_value check);
    status check ].

(** ** Further definitions: the command line run *)

(** How [main] ends once the arguments are parsed: with [sys.exit(1)],
    with the message that no checks were found, or with the results
    printed in a format. *)
Inductive MainOutcome : Type :=
| ExitFailure
| NoChecksFound
| Printed (output_format : string) (config_checks : list ConfigCheck).

(** The list comprehension of [main] for [--role]. *)
Definition filter_role (r : SplunkRole) (config_checks : list ConfigCheck)
  : list ConfigCheck :=
  List.filter (fun c => bool_decide (role c = Some r)) config_checks.

(** [main] after [parse_args]: [checker] is how the constructor ended,
    [document] the text at [--config-file] ([None]: no such file),
    [role_arg] the [--role] option, [dry_run] and [output_format] the
    options of these names. *)
Definition main (checker : result Checker) (document : option string)
  (role_arg : option SplunkRole) (dry_run : bool) (output_format : string)
  (env : nat -> World) : MainOutcome :=
  match checker with
  | Raise _ => ExitFailure
  | Ok self =>
      match parse_config_file document [] with
      | Raise _ => ExitFailure
      | Ok parsed =>
          let config_checks :=
            match role_arg with
            | Some r => filter_role r parsed
            | None => parsed
            end in
          match config_checks with
          | [] => NoChecksFound
          | _ :: _ =>
              if dry_run then Printed output_format config_checks
              else
                match check_configurations env self config_checks with
                | (res, None) => Printed output_format res
                | (_, Some _) => ExitFailure
                end
          end
      end
  end.

(** ** Further definitions: starting a checker *)

(** What the constructor can observe of the machine. *)
Record Host : Type := mkHost {
  (** [os.environ.get("SPLUNK_HOME")] *)
  environ_splunk_home : option string;
  (** [os.path.expanduser("~/splunk")] *)
  user_splunk : string;
  path_exists : string -> bool;
  (** [os.access(p, os.X_OK)] *)
  access_x : string -> bool;
  (** [subprocess.run] of the probe command *)
  run_probe : list string -> RunOutcome;
  (** [None] when the archive cannot be opened or unpacked; otherwise the
      temporary directory it is unpacked into *)
  extract_to : string -> option string;
  (** the [(root, dirs)] of [os.walk(top)], in its order *)
  walk_dirs : string -> list (string * list string)
}.

Definition common_paths (h : Host) : list string :=
  ["/opt/splunk"; "/Applications/Splunk"; "/usr/local/splunk"; user_splunk h].

(** [find_splunk_home]; [None] is the exception it raises. *)
Definition find_splunk_home (h : Host) : option string :=
  match environ_splunk_home h with
  | Some p => Some p
  | None =>
      find (fun p => path_exists h (path_join p ["bin"; "splunk"])) (common_paths h)
  end.

(** [validate_splunk_installation]; [None] is an exception of the probe
    that is not caught. *)
Definition validate_splunk_installation (h : Host) (btool : string) : option bool :=
  if negb (path_exists h btool) then Some false
  else if negb (access_x h btool) then Some false
  else
    match run_probe h [btool; "btool"; "server"; "list"; "--help"] with
    | Completed returncode _ _ => Some (returncode =? 0)%Z
    | TimeoutExpired => Some true
    | CalledProcessError => Some true
    | FileNotFoundError => Some true
    | OtherException => None
    end.

(** [_find_splunk_home_in_diag]. *)
Definition _find_splunk_home_in_diag (h : Host) (temp_dir : string) : string :=
  match
    find (fun '(root, dirs) =>
            existsb (String.eqb "etc") dirs
            && path_exists h (path_join2 (path_join2 root "etc") "system"))
      (walk_dirs h temp_dir)
  with
  | Some (root, _) => root
  | None => temp_dir
  end.

(** The constructor; [None] is an exception.  An empty [splunk_home]
    argument counts as none. *)
Definition init (h : Host) (splunk_home_arg diag_file : option string)
  : option Checker :=
  match diag_file with
  | Some archive =>
      if negb (path_exists h archive) then None
      else
        match extract_to h archive with
        | Some temp_dir =>
            Some (mkChecker true temp_dir (_find_splunk_home_in_diag h temp_dir) "")
        | None => None
        end
  | None =>
      let home :=
        match splunk_home_arg with
        | Some p => if truthy p then Some p else find_splunk_home h
        | None => find_splunk_home h
        end in
      match home with
      | Some p =>
          let btool := path_join p ["bin"; "splunk"] in
          match validate_splunk_installation h btool with
          | Some true => Some (mkChecker false "" p btool)
          | _ => None
          end
      | None => None
      end
  end.

(** A machine with Splunk under [/opt/splunk] whose probe times out. *)
Definition slow_host : Host :=
  mkHost None "/home/u/splunk"
    (fun p => String.eqb p "/opt/splunk/bin/splunk")
    (fun p => String.eqb p "/opt/splunk/bin/splunk")
    (fun _ => TimeoutExpired)
    (fun _ => None)
    (fun _ => []).

(** A machine with an archive that unpacks to a tree with [etc/system]
    one level down. *)
Definition archive_host : Host :=
  mkHost None "/home/u/splunk"
    (fun p => String.eqb p "/tmp/diag.tar.gz"
              || String.eqb p "/tmp/splunk_diag_x/diag-host/etc/system")
    (fun _ => false)
    (fun _ => FileNotFoundError)
    (fun _ => Some "/tmp/splunk_diag_x")
    (fun _ => [ ("/tmp/splunk_diag_x", ["diag-host"]);
                ("/tmp/splunk_diag_x/diag-host", ["etc"; "log"]);
                ("/tmp/splunk_diag_x/diag-host/etc", ["system"; "apps"]) ]).

(** An archive whose [server.conf] cannot be read and has a path that
    the terminal cannot print. *)
Definition unprintable_archive : World :=
  mkWorld
    (fun _ => FileNotFoundError)
    (fun _ => [])
    (fun _ => true)
    (fun _ => None)
    (fun _ => [("/tmp/splunk_diag_x/etc/system/local", ["server.conf"])])
    (fun _ => true).

(** An archive with the same [server.conf] setting in two files. *)
Definition two_file_archive : World :=
  mkWorld
    (fun _ => FileNotFoundError)
    (fun _ => [])
    (fun _ => true)
    (fun p =>
       if String.eqb p "/tmp/splunk_diag_x/etc/system/local/server.conf"
       then Some (join nl ["[httpServer]"; "busyKeepAliveIdleTimeout = 60"])
       else Some (join nl ["[httpServer]"; "busyKeepAliveIdleTimeout = 30"]))
    (fun _ => [ ("/tmp/splunk_diag_x/etc/system/local", ["server.conf"]);
                ("/tmp/splunk_diag_x/etc/system/default", ["server.conf"]) ])
    (fun _ => false).

(** A live machine on which the tool is denied and [server.conf] exists
    under [etc/system/local] and under [etc/system/default]. *)
Definition denied_world : World :=
  mkWorld
    (fun _ => Completed 1 "" "Permission denied")
    (fun pattern =>
       if String.eqb pattern "/opt/splunk/etc/system/local/server.conf"
          || String.eqb pattern "/opt/splunk/etc/system/default/server.conf"
       then [pattern] else [])
    (fun _ => true)
    (fun p =>
       if String.eqb p "/opt/splunk/etc/system/local/server.conf"
       then Some (join nl ["[httpServer]"; "busyKeepAliveIdleTimeout = 60"])
       else Some (join nl ["[httpServer]"; "busyKeepAliveIdleTimeout = 30"]))
    (fun _ => [])
    (fun _ => false).

(** ** The golden document parser yields no checks *)

#[local] Arguments startswith : simpl never.
#[local] Arguments endswith : simpl never.
#[local] Arguments contains : simpl never.
#[local] Arguments strip : simpl never.
#[local] Arguments truthy : simpl never.
#[local] Arguments Ascii.eqb : simpl never.
#[local] Arguments String.eqb : simpl never.

Section ParserFacts.

Lemma startswith_cons (a b : ascii) (s p : string) :
  startswith (String b s) (String a p) = Ascii.eqb a b && startswith s p.
Proof. reflexivity. Qed.

Lemma startswith_empty (s : string) : startswith s "" = true.
Proof. reflexivity. Qed.

Lemma startswith_of_empty (a : ascii) (p : string) :
  startswith "" (String a p) = false.
Proof. reflexivity. Qed.

Lemma startswith_hashes (s : string) :
  startswith s "###" = true -> startswith s "#" = true.
Proof.
  destruct s as [|c s]; [discriminate|].
  rewrite !startswith_cons, startswith_empty.
  destruct (Ascii.eqb "#" c); [reflexivity|discriminate].
Qed.

(** A step taken without a current config file leaves it unset and adds
    no check: the comment test comes before the file-marker test, and a
    file marker starts with [#]. *)
Lemma parse_role_step_no_file (r : SplunkRole) (cs : option string)
  (checks : list ConfigCheck) (line0 : string) :
  exists cs', parse_role_step r (None, cs, checks) line0 = (None, cs', checks).
Proof.
  unfold parse_role_step.
  destruct (negb (truthy (strip line0)) || startswith (strip line0) "#") eqn:Hskip.
  - eauto.
  - apply orb_false_elim in Hskip as [_ Hhash].
    destruct (startswith (strip line0) "###") eqn:H3.
    + apply startswith_hashes in H3. congruence.
    + cbn [andb].
      destruct (startswith (strip line0) "[" && endswith (strip line0) "]"); [eauto|].
      cbn [opt_truthy]. rewrite andb_false_r. cbn [andb]. eauto.
Qed.

Lemma parse_role_lines_no_file (r : SplunkRole) (lines : list string) :
  forall cs checks,
    exists cs', fold_left (parse_role_step r) lines (None, cs, checks)
                = (None, cs', checks).
Proof.
  induction lines as [|l lines IH]; intros cs checks; cbn [fold_left].
  - eauto.
  - destruct (parse_role_step_no_file r cs checks l) as [cs' ->]. apply IH.
Qed.

Lemma _parse_role_section_id (r : SplunkRole) (content : string)
  (checks : list ConfigCheck) :
  _parse_role_section r content checks = checks.
Proof.
  unfold _parse_role_section.
  destruct (parse_role_lines_no_file r (split newline content) None checks)
    as [cs' ->].
  reflexivity.
Qed.

Lemma parse_document_id (content : string) (checks : list ConfigCheck) :
  parse_document content checks = checks.
Proof.
  unfold parse_document.
  induction (_split_by_roles content) as [|[r sec] secs IH]; cbn [fold_left].
  - reflexivity.
  - rewrite _parse_role_section_id. exact IH.
Qed.

End ParserFacts.

(** C1 (the code departs from the claim).  The scenario document has one
    role block with one setting line under a file marker and a stanza,
    so one expectation is due; [parse_config_file] produces none, and it
    produces none for any document: whatever the text, the list of
    checks comes back as it was. *)
Theorem C1_parser_yields_no_expectations :
  parse_config_file (Some scenario_document) [] = Ok []
  /\ parse_config_file (Some test_config) [] = Ok []
  /\ forall content checks,
       parse_config_file (Some content) checks = Ok checks.
Proof.
  split; [|split].
  - vm_compute. reflexivity.
  - vm_compute. reflexivity.
  - intros content checks. unfold parse_config_file.
    f_equal. apply parse_document_id.
Qed.

(** In [_split_by_roles] a role that is ended a second time keeps its
    place in the dict and only its later section. *)
Example repeated_role_keeps_last_section :
  _split_by_roles repeated_role_document
  = [ (SEARCH_HEAD,
       join nl [ "###BEGIN SEARCH HEADS###"; "###limits.conf###"; "[search]";
                 "remote_timeline_connection_timeout = 30" ]);
      (INDEXER,
       join nl [ "###BEGIN INDEXERS###"; "###server.conf###"; "[clustering]";
                 "heartbeat_period = 10" ]) ].
Proof. vm_compute. reflexivity. Qed.

(** ** Lines and texts *)

Section Lines.

Lemma contains_cons (sub : string) (c : ascii) (s : string) :
  contains sub (String c s) = startswith (String c s) sub || contains sub s.
Proof. reflexivity. Qed.

Lemma one_line_cons (c : ascii) (s : string) :
  one_line (String c s) = negb (Ascii.eqb c newline) && one_line s.
Proof.
  unfold one_line, nl. rewrite contains_cons, startswith_cons, startswith_empty.
  rewrite andb_true_r, negb_orb, (Ascii.eqb_sym newline c). reflexivity.
Qed.

Lemma split_cons (sep c : ascii) (s : string) :
  split sep (String c s) =
  if Ascii.eqb c sep then EmptyString :: split sep s
  else match split sep s with
       | h :: t => String c h :: t
       | [] => [String c EmptyString]
       end.
Proof. reflexivity. Qed.

Lemma split_not_nil (sep : ascii) (s : string) : split sep s <> [].
Proof.
  induction s as [|c s IH]; [discriminate|].
  rewrite split_cons. destruct (Ascii.eqb c sep); [discriminate|].
  destruct (split sep s); [contradiction|discriminate].
Qed.

(** [(s + "\n" + t).split("\n")] is [s.split("\n") + t.split("\n")]. *)
Lemma split_append (s t : string) :
  split newline (s ++ nl ++ t) = (split newline s ++ split newline t)%list.
Proof.
  induction s as [|c s IH].
  - change ("" ++ nl ++ t) with (String newline t).
    rewrite split_cons, Ascii.eqb_refl. reflexivity.
  - change (String c s ++ nl ++ t) with (String c (s ++ nl ++ t)).
    rewrite !split_cons, IH.
    destruct (Ascii.eqb c newline); [reflexivity|].
    pose proof (split_not_nil newline s) as Hne.
    destruct (split newline s); [contradiction|reflexivity].
Qed.

Lemma join_cons2 (sep p q : string) (rest : list string) :
  join sep (p :: q :: rest) = p ++ sep ++ join sep (q :: rest).
Proof. reflexivity. Qed.

Lemma split_join (parts : list string) :
  parts <> [] ->
  split newline (join nl parts) = flat_map (split newline) parts.
Proof.
  induction parts as [|p parts IH]; [contradiction|]. intros _.
  destruct parts as [|q parts].
  - cbn [join flat_map]. rewrite app_nil_r. reflexivity.
  - rewrite join_cons2, split_append, IH by discriminate. reflexivity.
Qed.

Lemma split_one_line (s : string) :
  one_line s = true -> split newline s = [s].
Proof.
  induction s as [|c s IH]; [reflexivity|].
  rewrite one_line_cons, split_cons. intros [Hc Hs]%andb_true_iff.
  apply negb_true_iff in Hc. rewrite Hc, (IH Hs). reflexivity.
Qed.

Lemma flat_map_split_lines (lines : list string) :
  Forall (fun l => one_line l = true) lines ->
  flat_map (split newline) lines = lines.
Proof.
  induction 1 as [|l lines Hl _ IH]; [reflexivity|].
  cbn [flat_map]. rewrite (split_one_line l Hl), IH. reflexivity.
Qed.

End Lines.

(** ** Role sections *)

Section RoleSections.

Lemma split_step_sections_no_end (st : SplitState) (line0 : string) :
  contains "###END" (strip line0) = false ->
  sections (split_step st line0) = sections st.
Proof.
  intros Hend. unfold split_step. rewrite Hend.
  destruct (find_begin role_markers (strip line0)) as [r|]; cbn [current_role].
  - destruct (truthy (strip line0)); reflexivity.
  - destruct (current_role st); [|reflexivity].
    destruct (truthy (strip line0)); reflexivity.
Qed.

Lemma split_lines_sections_no_end (lines : list string) :
  Forall (fun l => contains "###END" (strip l) = false) lines ->
  forall st, sections (fold_left split_step lines st) = sections st.
Proof.
  induction 1 as [|l lines Hl _ IH]; intros st; cbn [fold_left].
  - reflexivity.
  - rewrite IH. apply split_step_sections_no_end, Hl.
Qed.

(** A line that begins a role forgets the role and the lines that were
    pending before it. *)
Lemma split_step_begin (st st' : SplitState) (line0 : string) :
  find_begin role_markers (strip line0) <> None ->
  sections st = sections st' ->
  split_step st line0 = split_step st' line0.
Proof.
  intros Hb Hs. unfold split_step.
  destruct (find_begin role_markers (strip line0)) as [r|]; [|contradiction].
  cbn [current_role sections current_section]. rewrite Hs. reflexivity.
Qed.

Lemma split_lines_unfinished (pre block rest : list string) (b : string) :
  find_begin role_markers (strip b) <> None ->
  Forall (fun l => contains "###END" (strip l) = false) (b :: block) ->
  ends_or_begins rest ->
  sections (split_lines (pre ++ b :: block ++ rest))
  = sections (split_lines (pre ++ rest)).
Proof.
  intros Hb Hno Hrest. unfold split_lines.
  rewrite !fold_left_app.
  set (st := fold_left split_step pre _).
  change (b :: block ++ rest)%list with ((b :: block) ++ rest)%list.
  rewrite fold_left_app.
  pose proof (split_lines_sections_no_end _ Hno st) as Hs.
  revert Hs. generalize (fold_left split_step (b :: block) st). intros st1 Hs.
  destruct rest as [|b2 rest]; cbn [fold_left].
  - exact Hs.
  - rewrite (split_step_begin st1 st b2 Hrest Hs). reflexivity.
Qed.

Lemma _split_by_roles_join (lines : list string) :
  Forall (fun l => one_line l = true) lines ->
  _split_by_roles (join nl lines) = sections (split_lines lines).
Proof.
  intros Hl. destruct lines as [|l lines]; [reflexivity|].
  unfold _split_by_roles.
  rewrite split_join by discriminate.
  rewrite flat_map_split_lines by exact Hl. reflexivity.
Qed.

End RoleSections.

(** C9.  A role block that is begun (line [b]) and runs on (lines
    [block]) without any line containing the end marker, up to the end
    of the document or up to the next line that begins a role, leaves
    no trace: the sections, and so the expectations, are those of the
    document without the block. *)
Theorem C9_unfinished_block_commits_nothing
  (pre block rest : list string) (b : string) :
  Forall (fun l => one_line l = true) (pre ++ b :: block ++ rest) ->
  find_begin role_markers (strip b) <> None ->
  Forall (fun l => contains "###END" (strip l) = false) (b :: block) ->
  ends_or_begins rest ->
  _split_by_roles (join nl (pre ++ b :: block ++ rest))
  = _split_by_roles (join nl (pre ++ rest))
  /\ forall checks,
       parse_document (join nl (pre ++ b :: block ++ rest)) checks
       = parse_document (join nl (pre ++ rest)) checks.
Proof.
  intros Hlines Hb Hno Hrest.
  assert (Hsec : _split_by_roles (join nl (pre ++ b :: block ++ rest))
                 = _split_by_roles (join nl (pre ++ rest))).
  { rewrite !_split_by_roles_join.
    - apply split_lines_unfinished; assumption.
    - apply Forall_app in Hlines as [Hpre Hrest'].
      apply Forall_app. split; [exact Hpre|].
      apply Forall_cons_iff in Hrest' as [_ Hrest'].
      apply Forall_app in Hrest' as [_ Hrest']. exact Hrest'.
    - exact Hlines. }
  split; [exact Hsec|].
  intros checks. unfold parse_document. rewrite Hsec. reflexivity.
Qed.

Lemma C9_unfinished_block_witness :
  Forall (fun l => one_line l = true)
    ([] ++ "###BEGIN SEARCH HEADS###" :: unfinished_block ++ following_block)
  /\ find_begin role_markers (strip "###BEGIN SEARCH HEADS###") <> None
  /\ Forall (fun l => contains "###END" (strip l) = false)
       ("###BEGIN SEARCH HEADS###" :: unfinished_block)
  /\ ends_or_begins following_block
  /\ _split_by_roles
       (join nl ([] ++ "###BEGIN SEARCH HEADS###" :: unfinished_block ++ following_block))
     = _split_by_roles (join nl ([] ++ following_block)).
Proof.
  assert (H1 : Forall (fun l => one_line l = true)
    ([] ++ "###BEGIN SEARCH HEADS###" :: unfinished_block ++ following_block))
    by (repeat constructor).
  assert (H2 : find_begin role_markers (strip "###BEGIN SEARCH HEADS###") <> None)
    by (vm_compute; discriminate).
  assert (H3 : Forall (fun l => contains "###END" (strip l) = false)
       ("###BEGIN SEARCH HEADS###" :: unfinished_block))
    by (repeat constructor).
  assert (H4 : ends_or_begins following_block)
    by (vm_compute; discriminate).
  repeat (split; [assumption|]).
  exact (proj1 (C9_unfinished_block_commits_nothing
                  [] unfinished_block following_block
                  "###BEGIN SEARCH HEADS###" H1 H2 H3 H4)).
Defined.

(** ** Stanza text scanning *)

Section Scan.

Variables target_stanza target_setting : string.

Abbreviation scan := (btool_scan target_stanza target_setting).
Abbreviation hit := (is_hit target_stanza target_setting).

Lemma btool_scan_cons (cs : option string) (line0 : string) (rest : list string) :
  scan cs (line0 :: rest) =
  let line := strip line0 in
  if negb (truthy line) || startswith line "#" then scan cs rest
  else if startswith line "[" && endswith line "]"
  then scan (Some (slice_1_m1 line)) rest
  else if stanza_is cs target_stanza && contains "=" line
  then
    match split1 "=" line with
    | Some (k, v) =>
        if String.eqb (strip k) target_setting then Some (strip v)
        else scan cs rest
    | None => scan cs rest
    end
  else scan cs rest.
Proof. reflexivity. Qed.

Lemma stanza_in_effect_snoc (done : list string) (l : string) :
  stanza_in_effect (done ++ [l]) =
  if is_stanza_header l then Some (slice_1_m1 (strip l)) else stanza_in_effect done.
Proof.
  unfold stanza_in_effect. rewrite rev_unit. cbn [find].
  destruct (is_stanza_header l); reflexivity.
Qed.

(** A line that is no hit only moves the scan on. *)
Lemma scan_step_no_hit (done : list string) (l : string) (rest : list string) :
  hit done l = false ->
  scan (stanza_in_effect done) (l :: rest)
  = scan (stanza_in_effect (done ++ [l])) rest.
Proof.
  intros Hno. rewrite btool_scan_cons, stanza_in_effect_snoc. cbv zeta.
  unfold is_hit, is_stanza_header, sides, is_skipped in *.
  destruct (negb (truthy (strip l)) || startswith (strip l) "#"); [reflexivity|].
  cbn [negb andb] in *.
  destruct (startswith (strip l) "[" && endswith (strip l) "]"); [reflexivity|].
  cbn [negb andb] in *.
  destruct (stanza_is (stanza_in_effect done) target_stanza && contains "=" (strip l));
    [|reflexivity].
  cbn [andb] in Hno.
  destruct (split1 "=" (strip l)) as [[k v]|]; [|reflexivity].
  rewrite Hno. reflexivity.
Qed.

(** At a hit the scan returns the right side of the line. *)
Lemma scan_step_hit (done : list string) (l : string) (rest : list string)
  (k v : string) :
  hit done l = true -> sides l = Some (k, v) ->
  scan (stanza_in_effect done) (l :: rest) = Some v.
Proof.
  intros Hhit Hsides. rewrite btool_scan_cons. cbv zeta.
  unfold is_hit, is_stanza_header, sides, is_skipped in *.
  destruct (negb (truthy (strip l)) || startswith (strip l) "#"); [discriminate|].
  cbn [negb andb] in *.
  destruct (startswith (strip l) "[" && endswith (strip l) "]"); [discriminate|].
  cbn [negb andb] in *.
  destruct (stanza_is (stanza_in_effect done) target_stanza && contains "=" (strip l));
    [|discriminate].
  cbn [andb] in Hhit.
  destruct (split1 "=" (strip l)) as [[k' v']|]; [|discriminate].
  rewrite Hhit. congruence.
Qed.

Lemma scan_first_hit (pre : list string) :
  forall (done : list string) (line : string) (post : list string) (k v : string),
    (forall pre' l' post',
        pre = (pre' ++ l' :: post')%list -> hit (done ++ pre') l' = false) ->
    hit (done ++ pre) line = true ->
    sides line = Some (k, v) ->
    scan (stanza_in_effect done) (pre ++ line :: post) = Some v.
Proof.
  induction pre as [|l pre IH]; intros done line post k v Hbefore Hhit Hsides.
  - rewrite app_nil_r in Hhit. cbn [app]. eapply scan_step_hit; eassumption.
  - cbn [app]. rewrite scan_step_no_hit.
    + apply (IH (done ++ [l])%list line post k v).
      * intros pre' l' post' ->. rewrite <- app_assoc.
        apply (Hbefore (l :: pre') l' post'). reflexivity.
      * rewrite <- app_assoc. exact Hhit.
      * exact Hsides.
    + specialize (Hbefore [] l pre eq_refl). rewrite app_nil_r in Hbefore.
      exact Hbefore.
Qed.

Lemma scan_no_hit (lines : list string) :
  forall done : list string,
    (forall pre l post,
        lines = (pre ++ l :: post)%list -> hit (done ++ pre) l = false) ->
    scan (stanza_in_effect done) lines = None.
Proof.
  induction lines as [|l lines IH]; intros done Hno; [reflexivity|].
  rewrite scan_step_no_hit.
  - apply IH. intros pre l' post ->. rewrite <- app_assoc.
    apply (Hno (l :: pre) l' post). reflexivity.
  - specialize (Hno [] l lines eq_refl). rewrite app_nil_r in Hno. exact Hno.
Qed.

(** A comment line can be taken out of the lines at any state. *)
Lemma scan_comment (l1 : list string) :
  forall (cs : option string) (c : string) (l2 : list string),
    startswith (strip c) "#" = true ->
    scan cs (l1 ++ c :: l2) = scan cs (l1 ++ l2).
Proof.
  induction l1 as [|l l1 IH]; intros cs c l2 Hc; cbn [app].
  - rewrite btool_scan_cons. cbv zeta. rewrite Hc, orb_true_r. reflexivity.
  - rewrite !btool_scan_cons. cbv zeta.
    repeat match goal with
           | |- context [if ?b then _ else _] => destruct b
           | |- context [match ?o with Some _ => _ | None => _ end] => destruct o
           | |- context [let '(_, _) := ?p in _] => destruct p
           end; auto.
Qed.

(** A blank line too. *)
Lemma scan_blank (l1 : list string) :
  forall (cs : option string) (l2 : list string),
    scan cs (l1 ++ "" :: l2) = scan cs (l1 ++ l2).
Proof.
  induction l1 as [|l l1 IH]; intros cs l2; cbn [app].
  - reflexivity.
  - rewrite !btool_scan_cons. cbv zeta.
    repeat match goal with
           | |- context [if ?b then _ else _] => destruct b
           | |- context [match ?o with Some _ => _ | None => _ end] => destruct o
           | |- context [let '(_, _) := ?p in _] => destruct p
           end; auto.
Qed.

End Scan.

(** C5.  Among the lines of the raw text, call a hit a line that is not
    skipped (blank or starting with [#]) and is no stanza header, that
    stands where the last stanza header before it names the target
    stanza, that contains [=], and whose left side, split at the first
    [=] and trimmed, is the target setting.  Extraction returns the
    trimmed right side of the first hit, and returns nothing when the
    text has no hit. *)
Theorem C5_extraction_returns_first_hit
  (output target_stanza target_setting : string) :
  (forall pre line post k v,
      split newline output = (pre ++ line :: post)%list ->
      is_hit target_stanza target_setting pre line = true ->
      (forall pre' l' post',
          pre = (pre' ++ l' :: post')%list ->
          is_hit target_stanza target_setting pre' l' = false) ->
      sides line = Some (k, v) ->
      parse_btool_output output target_stanza target_setting = Some v)
  /\ ((forall pre line post,
        split newline output = (pre ++ line :: post)%list ->
        is_hit target_stanza target_setting pre line = false) ->
      parse_btool_output output target_stanza target_setting = None).
Proof.
  unfold parse_btool_output. split.
  - intros pre line post k v -> Hhit Hbefore Hsides.
    apply (scan_first_hit target_stanza target_setting pre [] line post k v);
      assumption.
  - intros Hno.
    apply (scan_no_hit target_stanza target_setting (split newline output) []).
    exact Hno.
Qed.

Lemma C5_extraction_witness :
  parse_btool_output sample_output "httpServer" "busyKeepAliveIdleTimeout"
  = Some "60".
Proof.
  apply (proj1 (C5_extraction_returns_first_hit
                  sample_output "httpServer" "busyKeepAliveIdleTimeout")
           [ "# From: /opt/splunk/etc/system/local/server.conf";
             "[general]"; "busyKeepAliveIdleTimeout = 5"; ""; "[httpServer]" ]
           "busyKeepAliveIdleTimeout = 60"
           [ "busyKeepAliveIdleTimeout = 70" ]
           "busyKeepAliveIdleTimeout" "60").
  - reflexivity.
  - reflexivity.
  - intros pre' l' post' H.
    repeat (destruct pre' as [|? pre'];
            [ injection H as <- <-; reflexivity
            | injection H as <- H ]).
    destruct pre'; discriminate H.
  - reflexivity.
Defined.

(** ** Source path lines in resolver output *)

Section SourceLines.

Lemma lstrip_by_cons_keep (f : ascii -> bool) (c : ascii) (s : string) :
  f c = false -> lstrip_by f (String c s) = String c s.
Proof. intros H. cbn [lstrip_by]. rewrite H. reflexivity. Qed.

Lemma rstrip_by_cons_keep (f : ascii -> bool) (c : ascii) (s : string) :
  f c = false -> exists r, rstrip_by f (String c s) = String c r.
Proof.
  intros H. cbn [rstrip_by]. destruct (rstrip_by f s).
  - rewrite H. eauto.
  - eauto.
Qed.

Lemma strip_cons_nonspace (c : ascii) (s : string) :
  isspace c = false -> exists r, strip (String c s) = String c r.
Proof.
  intros H. unfold strip, strip_by. rewrite lstrip_by_cons_keep by exact H.
  apply rstrip_by_cons_keep, H.
Qed.

Lemma source_line_is_comment (config_path : string) :
  startswith (strip ("# From: " ++ config_path)) "#" = true.
Proof.
  change ("# From: " ++ config_path) with (String "#" (" From: " ++ config_path)).
  destruct (strip_cons_nonspace "#" (" From: " ++ config_path) eq_refl) as [r ->].
  reflexivity.
Qed.

Lemma one_line_append (s t : string) :
  one_line (s ++ t) = one_line s && one_line t.
Proof.
  induction s as [|c s IH]; [reflexivity|].
  change (String c s ++ t) with (String c (s ++ t)).
  rewrite !one_line_cons, IH, andb_assoc. reflexivity.
Qed.

Variables target_stanza target_setting : string.

Abbreviation scan := (btool_scan target_stanza target_setting).

Lemma scan_split_join (cs : option string) (parts : list string) :
  scan cs (split newline (join nl parts))
  = scan cs (flat_map (split newline) parts).
Proof.
  destruct parts as [|p parts]; [reflexivity|].
  rewrite split_join by discriminate. reflexivity.
Qed.

Variable w : World.

(** What a resolver appends for one file, once split into lines, is the
    source path line and then the lines of the file. *)
Lemma entry_lines (blank_after : bool) (config_path : string) :
  one_line config_path = true ->
  let entry := if blank_after then diag_entry w config_path
               else alt_entry w config_path in
  flat_map (split newline) entry =
  match content_lines w blank_after config_path with
  | [] => []
  | ls => ("# From: " ++ config_path) :: ls
  end.
Proof.
  intros Hp. unfold diag_entry, alt_entry, content_lines.
  assert (Hh : split newline ("# From: " ++ config_path) = ["# From: " ++ config_path]).
  { apply split_one_line. rewrite one_line_append, Hp. reflexivity. }
  pose proof (split_not_nil newline) as Hne.
  destruct blank_after; cbv zeta;
    destruct (readable w config_path); try reflexivity;
    destruct (read_text w config_path) as [content|]; try reflexivity;
    cbn [flat_map]; rewrite Hh; specialize (Hne content);
    destruct (split newline content); try contradiction; cbn [app];
    rewrite ?app_nil_r; reflexivity.
Qed.

Lemma scan_without_source_lines (blank_after : bool) (paths : list string) :
  Forall (fun p => one_line p = true) paths ->
  forall (cs : option string) (l1 : list string),
    scan cs (l1 ++ flat_map (split newline)
                     (flat_map (if blank_after then diag_entry w else alt_entry w)
                        paths))
    = scan cs (l1 ++ flat_map (content_lines w blank_after) paths).
Proof.
  induction 1 as [|p paths Hp _ IH]; intros cs l1; [reflexivity|].
  cbn [flat_map]. rewrite flat_map_app.
  pose proof (entry_lines blank_after p Hp) as He. cbv zeta in He.
  replace (flat_map (split newline)
             ((if blank_after then diag_entry w else alt_entry w) p))
    with (match content_lines w blank_after p with
          | [] => []
          | ls => ("# From: " ++ p) :: ls
          end) by (destruct blank_after; symmetry; exact He).
  destruct (content_lines w blank_after p) as [|l ls].
  - cbn [app]. apply IH.
  - set (rest := flat_map (split newline) _).
    pose proof (source_line_is_comment p) as Hc.
    set (h := "# From: " ++ p) in *.
    change ((h :: l :: ls) ++ rest)%list with (h :: ((l :: ls) ++ rest))%list.
    rewrite scan_comment by exact Hc.
    rewrite !app_assoc. apply IH.
Qed.

End SourceLines.

(** C10 (amended).  A line whose trimmed form starts with [#] can be
    taken out of the text at any point of the scan without changing what extraction
    returns: it does not set the stanza and it is not returned.  The
    line [# From: <path>] is such a line for every path.  So, for source
    paths that are single lines, extraction from what the archive
    resolver or the direct-read resolver returns is extraction from the
    lines of the files alone. *)
Theorem C10_comment_lines_are_invisible :
  (forall target_stanza target_setting current_stanza l1 c l2,
      startswith (strip c) "#" = true ->
      btool_scan target_stanza target_setting current_stanza (l1 ++ c :: l2)
      = btool_scan target_stanza target_setting current_stanza (l1 ++ l2))
  /\ (forall config_path,
        startswith (strip ("# From: " ++ config_path)) "#" = true)
  /\ (forall w self config_file target_stanza target_setting,
        Forall (fun p => one_line p = true) (diag_config_paths w self config_file) ->
        parse_btool_output (_read_config_from_diag w self config_file)
          target_stanza target_setting
        = btool_scan target_stanza target_setting None
            (flat_map (content_lines w true) (diag_config_paths w self config_file)))
  /\ (forall w self config_file target_stanza target_setting,
        Forall (fun p => one_line p = true) (alt_config_paths w self config_file) ->
        parse_btool_output (_try_alternative_config_access w self config_file)
          target_stanza target_setting
        = btool_scan target_stanza target_setting None
            (flat_map (content_lines w false) (alt_config_paths w self config_file))).
Proof.
  split; [|split; [|split]].
  - intros ts tk cs l1 c l2 Hc. apply scan_comment, Hc.
  - apply source_line_is_comment.
  - intros w self f ts tk Hp.
    unfold parse_btool_output, _read_config_from_diag.
    rewrite scan_split_join.
    apply (scan_without_source_lines ts tk w true _ Hp None []).
  - intros w self f ts tk Hp.
    unfold parse_btool_output, _try_alternative_config_access.
    rewrite scan_split_join.
    apply (scan_without_source_lines ts tk w false _ Hp None []).
Qed.

Lemma C10_comment_lines_witness :
  Forall (fun p => one_line p = true)
    (diag_config_paths sample_archive archive_checker "server")
  /\ parse_btool_output (_read_config_from_diag sample_archive archive_checker "server")
       "httpServer" "busyKeepAliveIdleTimeout"
     = btool_scan "httpServer" "busyKeepAliveIdleTimeout" None
         (flat_map (content_lines sample_archive true)
            (diag_config_paths sample_archive archive_checker "server")).
Proof.
  assert (H : Forall (fun p => one_line p = true)
                (diag_config_paths sample_archive archive_checker "server"))
    by (repeat constructor).
  split; [exact H|].
  exact (proj1 (proj2 (proj2 C10_comment_lines_are_invisible))
           sample_archive archive_checker "server"
           "httpServer" "busyKeepAliveIdleTimeout" H).
Defined.

(** C10 as it was stated, for every source path, fails: with a line
    break in a directory name the text that the archive resolver puts
    before the file sets a stanza and a value, so extraction returns a
    value that is in no file. *)
Lemma C10_source_path_counterexample :
  parse_btool_output
    (_read_config_from_diag line_break_archive archive_checker "server")
    "httpServer" "busyKeepAliveIdleTimeout" = Some "1"
  /\ btool_scan "httpServer" "busyKeepAliveIdleTimeout" None
       (flat_map (content_lines line_break_archive true)
          (diag_config_paths line_break_archive archive_checker "server")) = None
  /\ ~ (forall w self config_file target_stanza target_setting,
          parse_btool_output (_read_config_from_diag w self config_file)
            target_stanza target_setting
          = btool_scan target_stanza target_setting None
              (flat_map (content_lines w true)
                 (diag_config_paths w self config_file))).
Proof.
  split; [vm_compute; reflexivity|]. split; [vm_compute; reflexivity|].
  intros H.
  specialize (H line_break_archive archive_checker "server"
                "httpServer" "busyKeepAliveIdleTimeout").
  vm_compute in H. discriminate H.
Qed.

(** A source path with a line break is more than one line of the
    resolver output; only its first line is a [# From:] line, and the
    lines after it are read like lines of a file. *)
Example source_path_with_line_break :
  split newline (_read_config_from_diag line_break_archive archive_checker "server")
  = [ "# From: /tmp/splunk_diag_x/d"; "[httpServer]";
      "busyKeepAliveIdleTimeout = 1"; "/server.conf";
      "[general]"; "serverName = a"; "" ]
  /\ parse_btool_output
       (_read_config_from_diag line_break_archive archive_checker "server")
       "httpServer" "busyKeepAliveIdleTimeout" = Some "1".
Proof. vm_compute. split; reflexivity. Qed.

(** ** Value comparison *)

(** The comparator agrees with the cases of the test suite. *)
Example test_value_comparison :
  forallb (fun '(actual, expected, should_match) =>
             Bool.eqb (_compare_values actual expected) should_match)
    comparison_cases = true.
Proof. vm_compute. reflexivity. Qed.

(** [float] rounds to the nearest binary64 number, ties to even, and
    overflows to infinity. *)
Example to_float_examples :
  PyNum.to_float "0.1" = Some (SpecFloat.S754_finite false 7205759403792794 (-56))
  /\ PyNum.to_float "9007199254740993"
     = Some (SpecFloat.S754_finite false 4503599627370496 1)
  /\ PyNum.to_float "4.9e-324" = Some (SpecFloat.S754_finite false 1 (-1074))
  /\ PyNum.to_float "1.7976931348623159e308" = Some (SpecFloat.S754_infinity false)
  /\ PyNum.to_float " -1_0.5E1 " = PyNum.to_float "-105"
  /\ PyNum.to_float "1e" = None
  /\ PyNum.int " +1_000 " = Some 1000%Z
  /\ PyNum.int "1.0" = None.
Proof. vm_compute. repeat split; reflexivity. Qed.

(** [int] takes a numeral of 4300 digits and refuses one of 4301. *)
Example int_digit_limit :
  PyNum.int (repeated "1" 4300) <> None
  /\ PyNum.int long_numeral = None
  /\ PyNum.int ("-" ++ repeated "0" 4300 ++ "7") = None
  /\ PyNum.int (" +" ++ repeated "0" 4299 ++ "7 ") = Some 7%Z.
Proof. vm_compute. repeat split; try reflexivity. discriminate. Qed.

(** C3.  When the expected value, lowercased, is [auto], [true] or
    [false], the comparator answers true exactly when the two values
    are equal once lowercased; no parse of the actual value as a number
    enters into the answer. *)
Theorem C3_keyword_comparison (actual expected : string) :
  In (lower expected) ["auto"; "true"; "false"] ->
  _compare_values actual expected = String.eqb (lower actual) (lower expected)
  /\ (_compare_values actual expected = true <-> lower actual = lower expected).
Proof.
  intros Hin.
  assert (Hk : is_keyword (lower expected) = true).
  { unfold is_keyword. apply existsb_exists. exists (lower expected).
    split; [|apply String.eqb_refl].
    cbn [In] in Hin. cbn [In]. intuition congruence. }
  assert (Heq : _compare_values actual expected
                = String.eqb (lower actual) (lower expected)).
  { unfold _compare_values. rewrite Hk. reflexivity. }
  split; [exact Heq|].
  rewrite Heq. apply String.eqb_eq.
Qed.

Lemma C3_keyword_comparison_witness :
  In (lower "TRUE") ["auto"; "true"; "false"]
  /\ _compare_values "1" "TRUE" = String.eqb (lower "1") (lower "TRUE")
  /\ (_compare_values "True" "TRUE" = true <-> lower "True" = lower "TRUE").
Proof.
  assert (H : In (lower "TRUE") ["auto"; "true"; "false"])
    by (right; left; reflexivity).
  split; [exact H|]. split.
  - exact (proj1 (C3_keyword_comparison "1" "TRUE" H)).
  - exact (proj2 (C3_keyword_comparison "True" "TRUE" H)).
Defined.

Lemma not_keyword (expected : string) :
  ~ In (lower expected) ["auto"; "true"; "false"] ->
  is_keyword (lower expected) = false.
Proof.
  intros Hn. unfold is_keyword.
  destruct (existsb (String.eqb (lower expected)) ["auto"; "true"; "false"]) eqn:E;
    [|reflexivity].
  apply existsb_exists in E as (x & Hx & Heq).
  apply String.eqb_eq in Heq. subst x. contradiction.
Qed.

(** C4.  When the expected value is no keyword: with a decimal point on
    either side and both sides parsing as floats, the answer is the
    equality of the two floats; with no decimal point and both sides
    parsing as integers, the answer is the equality of the two integers;
    and when the parse that applies fails on a side, the answer is the
    equality of the two values trimmed. *)
Theorem C4_numeric_then_string (actual expected : string) :
  ~ In (lower expected) ["auto"; "true"; "false"] ->
  (contains "." actual || contains "." expected = true ->
   forall fa fe,
     PyNum.to_float actual = Some fa -> PyNum.to_float expected = Some fe ->
     _compare_values actual expected = PyNum.float_eq fa fe)
  /\ (contains "." actual || contains "." expected = false ->
      forall ia ie,
        PyNum.int actual = Some ia -> PyNum.int expected = Some ie ->
        _compare_values actual expected = (ia =? ie)%Z)
  /\ (contains "." actual || contains "." expected = true ->
      PyNum.to_float actual = None \/ PyNum.to_float expected = None ->
      _compare_values actual expected = String.eqb (strip actual) (strip expected))
  /\ (contains "." actual || contains "." expected = false ->
      PyNum.int actual = None \/ PyNum.int expected = None ->
      _compare_values actual expected = String.eqb (strip actual) (strip expected)).
Proof.
  intros Hn. apply not_keyword in Hn.
  unfold _compare_values, numeric_compare. rewrite Hn.
  repeat split.
  - intros -> fa fe -> ->. reflexivity.
  - intros -> ia ie -> ->. reflexivity.
  - intros -> [-> | ->]; [reflexivity|].
    destruct (PyNum.to_float actual); reflexivity.
  - intros -> [-> | ->]; [reflexivity|].
    destruct (PyNum.int actual); reflexivity.
Qed.

Lemma C4_numeric_then_string_witness :
  ~ In (lower "30.0") ["auto"; "true"; "false"]
  /\ _compare_values "30" "30.0" = true
  /\ ~ In (lower "+1_20") ["auto"; "true"; "false"]
  /\ _compare_values "0120" "+1_20" = true
  /\ ~ In (lower " 1.2.3 ") ["auto"; "true"; "false"]
  /\ _compare_values "1.2.3" " 1.2.3 " = true
  /\ ~ In (lower ("+" ++ long_numeral)) ["auto"; "true"; "false"]
  /\ PyNum.int long_numeral = None
  /\ _compare_values long_numeral ("+" ++ long_numeral) = false.
Proof.
  assert (H : ~ In (lower "30.0") ["auto"; "true"; "false"]).
  { cbn [In]. intros [E | [E | [E | []]]]; vm_compute in E; discriminate E. }
  assert (H1 : ~ In (lower "+1_20") ["auto"; "true"; "false"]).
  { cbn [In]. intros [E | [E | [E | []]]]; vm_compute in E; discriminate E. }
  assert (H2 : ~ In (lower " 1.2.3 ") ["auto"; "true"; "false"]).
  { cbn [In]. intros [E | [E | [E | []]]]; vm_compute in E; discriminate E. }
  assert (H3 : ~ In (lower ("+" ++ long_numeral)) ["auto"; "true"; "false"]).
  { cbn [In]. intros [E | [E | [E | []]]]; vm_compute in E; discriminate E. }
  assert (Hint : PyNum.int long_numeral = None) by (vm_compute; reflexivity).
  assert (Hdot : contains "." long_numeral || contains "." ("+" ++ long_numeral)
                 = false) by (vm_compute; reflexivity).
  split; [exact H|]. split.
  { exact (proj1 (C4_numeric_then_string "30" "30.0" H) eq_refl
             (SpecFloat.S754_finite false 8444249301319680 (-48))
             (SpecFloat.S754_finite false 8444249301319680 (-48))
             eq_refl eq_refl). }
  split; [exact H1|]. split.
  { exact (proj1 (proj2 (C4_numeric_then_string "0120" "+1_20" H1)) eq_refl
             120%Z 120%Z eq_refl eq_refl). }
  split; [exact H2|]. split.
  { exact (proj1 (proj2 (proj2 (C4_numeric_then_string "1.2.3" " 1.2.3 " H2)))
             eq_refl (or_introl eq_refl)). }
  split; [exact H3|]. split; [exact Hint|].
  rewrite (proj2 (proj2 (proj2 (C4_numeric_then_string
                                  long_numeral ("+" ++ long_numeral) H3)))
             Hdot (or_introl Hint)).
  vm_compute. reflexivity.
Defined.

(** ** Check engine *)

Section Engine.

Lemma judge_same_expectation (check : ConfigCheck) (btool_output : string) :
  same_expectation check (judge check btool_output).
Proof.
  unfold judge, same_expectation.
  destruct (truthy btool_output); [|cbn; tauto].
  destruct (parse_btool_output _ _ _) as [a|]; [|cbn; tauto].
  cbn [set_actual_value expected_value].
  destruct (_compare_values a (expected_value check)); cbn; tauto.
Qed.

Lemma same_expectation_refl (check : ConfigCheck) : same_expectation check check.
Proof. unfold same_expectation. tauto. Qed.

Lemma check_from_same_expectation (env : nat -> World) (self : Checker)
  (checks : list ConfigCheck) :
  forall i, Forall2 same_expectation checks (fst (check_from env self i checks)).
Proof.
  induction checks as [|c checks IH]; intros i; cbn [check_from].
  - constructor.
  - unfold check_one.
    destruct (run_btool_command (env i) self (config_base c) (stanza c)) as [out|e].
    + specialize (IH (S i)).
      destruct (check_from env self (S i) checks) as [rest' e']. cbn [fst] in *.
      constructor; [apply judge_same_expectation|exact IH].
    + cbn [fst]. constructor; [apply same_expectation_refl|].
      clear. induction checks; constructor; auto using same_expectation_refl.
Qed.

End Engine.

(** C6.  After a check pass the list of checks has one entry for each
    entry it had before, in the same order, and each entry has the
    role, config file, stanza, setting and expected value it had. *)
Theorem C6_check_pass_keeps_expectations
  (env : nat -> World) (self : Checker) (config_checks : list ConfigCheck) :
  length (fst (check_configurations env self config_checks)) = length config_checks
  /\ Forall2 same_expectation config_checks
       (fst (check_configurations env self config_checks)).
Proof.
  pose proof (check_from_same_expectation env self config_checks 0) as H.
  split; [|exact H].
  symmetry. eapply Forall2_length. exact H.
Qed.

(** ** The backend key *)

Section BackendKey.

Lemma remove_from_cons0 (old : string) (c : ascii) (s : string) :
  remove_from old 0 (String c s) =
  if startswith (String c s) old
  then remove_from old (String.length old - 1) s
  else String c (remove_from old 0 s).
Proof. reflexivity. Qed.

(** No [.conf] begins inside a non-empty [s] and ends inside the suffix
    [.conf] put after it. *)
Lemma conf_not_across (s : string) :
  s <> "" ->
  startswith s ".conf" = false ->
  startswith (s ++ ".conf") ".conf" = false.
Proof.
  intros Hne H.
  destruct s as [|c1 [|c2 [|c3 [|c4 [|c5 s]]]]]; [contradiction|..];
    repeat match goal with
           | |- context [(String ?c ?t ++ ?u)] =>
               change (String c t ++ u) with (String c (t ++ u))
           | |- context [("" ++ ?u)] => change ("" ++ u) with u
           end;
    rewrite ?startswith_cons, ?startswith_empty in *;
    repeat match goal with
           | |- context [Ascii.eqb ?a ?b] =>
               destruct (Ascii.eqb_spec a b); [try discriminate; subst|reflexivity]
           end;
    try reflexivity.
Qed.

(** When [.conf] does not occur in [s], removing every [.conf] from
    [s.conf] gives [s]. *)
Lemma remove_all_suffix_only (s : string) :
  contains ".conf" s = false -> remove_all ".conf" (s ++ ".conf") = s.
Proof.
  unfold remove_all. induction s as [|c s IH]; intros H; [reflexivity|].
  rewrite contains_cons in H. apply orb_false_elim in H as [Hhere Hlater].
  pose proof (conf_not_across (String c s) ltac:(discriminate) Hhere) as Hx.
  change (String c s ++ ".conf") with (String c (s ++ ".conf")) in *.
  rewrite remove_from_cons0, Hx, (IH Hlater). reflexivity.
Qed.

(** The key is the name without its suffix when [.conf] occurs nowhere
    else in the name. *)
Lemma config_base_suffix_only (check : ConfigCheck) (name : string) :
  config_file check = name ++ ".conf" ->
  contains ".conf" name = false ->
  config_base check = name.
Proof.
  intros Hf Hn. unfold config_base. rewrite Hf.
  apply remove_all_suffix_only, Hn.
Qed.

End BackendKey.

(** C7 (the code departs from the claim).  For the config file
    [app.config.conf] the key should be [app.config]; the code removes
    every [.conf], so it asks the backend for [appig].  For
    [server.conf] the key is [server]. *)
Theorem C7_key_loses_inner_conf :
  config_base inner_conf_check = "appig"
  /\ btool_cmd live_checker (config_base inner_conf_check) (stanza inner_conf_check)
     = ["/opt/splunk/bin/splunk"; "btool"; "appig"; "list"; "general"]
  /\ config_base inner_conf_check <> "app.config"
  /\ config_base server_check = "server".
Proof.
  split; [reflexivity|]. split; [reflexivity|]. split.
  - vm_compute. discriminate.
  - reflexivity.
Qed.

Section Status.

Lemma truthy_empty : truthy "" = false.
Proof. reflexivity. Qed.

Lemma truthy_nonempty (s : string) : s <> "" -> truthy s = true.
Proof. destruct s; [contradiction|reflexivity]. Qed.



End Status.



(** ** Summary counts *)

Section Summary.

Lemma summary_init_dom : dom summary_init = list_to_set summary_keys.
Proof.
  unfold summary_init, summary_keys. cbn [fold_right list_to_set].
  rewrite !dom_insert_L, dom_empty_L. reflexivity.
Qed.

Lemma summary_step_dom (m : gmap string nat) (c : ConfigCheck) :
  dom (summary_step m c) = dom m.
Proof.
  unfold summary_step. destruct (lookup (status c) m) as [n|] eqn:E; [|reflexivity].
  rewrite dom_insert_L.
  assert (Hk : elem_of (status c) (dom m)) by (apply elem_of_dom; eauto).
  apply subseteq_union_1_L, singleton_subseteq_l, Hk.
Qed.

Lemma summary_dom (checks : list ConfigCheck) :
  forall m, dom (fold_left summary_step checks m) = dom m.
Proof.
  induction checks as [|c checks IH]; intros m; cbn [fold_left]; [reflexivity|].
  rewrite IH. apply summary_step_dom.
Qed.

Lemma summary_step_total (m : gmap string nat) (c : ConfigCheck) :
  dom m = list_to_set summary_keys ->
  In (status c) summary_keys ->
  summary_total (summary_step m c) = S (summary_total m).
Proof.
  intros Hdom Hin. unfold summary_step.
  assert (Hsome : is_Some (lookup (status c) m)).
  { apply elem_of_dom. rewrite Hdom. apply elem_of_list_to_set.
    apply list_elem_of_In. exact Hin. }
  destruct Hsome as [n Hn]. rewrite Hn.
  revert Hn Hin. generalize (status c). intros k Hn Hin.
  unfold summary_total, count_of. cbn [In summary_keys] in Hin.
  destruct Hin as [<- | [<- | [<- | [<- | [<- | []]]]]];
    rewrite lookup_insert_eq, !lookup_insert_ne by discriminate;
    rewrite Hn; cbn [default from_option]; unfold id; lia.
Qed.

Lemma summary_total_fold (checks : list ConfigCheck) :
  Forall (fun c => In (status c) summary_keys) checks ->
  forall m,
    dom m = list_to_set summary_keys ->
    summary_total (fold_left summary_step checks m)
    = summary_total m + length checks.
Proof.
  induction 1 as [|c checks Hc _ IH]; intros m Hdom; cbn [fold_left length].
  - lia.
  - rewrite IH by (rewrite summary_step_dom; exact Hdom).
    rewrite summary_step_total by assumption. lia.
Qed.

End Summary.

(** C8.  The summary has the five status keys and no other, whatever
    the counts; and when every status is one of the five, the five
    counts add up to the number of results. *)
Theorem C8_summary_counts (config_checks : list ConfigCheck) :
  Forall (fun c => In (status c) summary_keys) config_checks ->
  dom (_get_summary config_checks) = list_to_set summary_keys
  /\ (forall k, In k summary_keys -> is_Some (lookup k (_get_summary config_checks)))
  /\ summary_total (_get_summary config_checks) = length config_checks.
Proof.
  intros Hst. unfold _get_summary.
  assert (Hdom : dom (fold_left summary_step config_checks summary_init)
                 = list_to_set summary_keys)
    by (rewrite summary_dom; apply summary_init_dom).
  split; [exact Hdom|]. split.
  - intros k Hk. apply elem_of_dom. rewrite Hdom.
    apply elem_of_list_to_set, list_elem_of_In, Hk.
  - rewrite summary_total_fold by (exact Hst || apply summary_init_dom).
    reflexivity.
Qed.

Lemma C8_summary_counts_witness :
  Forall (fun c => In (status c) summary_keys)
    [set_status server_check "OK"; set_status server_check "ERROR"; server_check]
  /\ summary_total
       (_get_summary
          [set_status server_check "OK"; set_status server_check "ERROR"; server_check])
     = 3.
Proof.
  assert (H : Forall (fun c => In (status c) summary_keys)
    [set_status server_check "OK"; set_status server_check "ERROR"; server_check]).
  { repeat constructor; cbn; tauto. }
  split; [exact H|].
  exact (proj2 (proj2 (C8_summary_counts _ H))).
Defined.

(** * Further properties of the program *)

(** ** Trimming and line breaks *)

Section Trimming.

Variable f : ascii -> bool.

Lemma rstrip_by_cons (c : ascii) (s : string) :
  rstrip_by f (String c s) =
  match rstrip_by f s with
  | EmptyString => if f c then EmptyString else String c EmptyString
  | r => String c r
  end.
Proof. reflexivity. Qed.

Lemma rstrip_by_idem (s : string) : rstrip_by f (rstrip_by f s) = rstrip_by f s.
Proof.
  induction s as [|c s IH]; [reflexivity|].
  rewrite rstrip_by_cons. destruct (rstrip_by f s) as [|d r] eqn:E.
  - destruct (f c) eqn:F; [reflexivity|].
    rewrite rstrip_by_cons. cbn [rstrip_by]. rewrite F. reflexivity.
  - rewrite rstrip_by_cons, IH. reflexivity.
Qed.

Lemma lstrip_by_head_kept (s : string) : head_kept f (lstrip_by f s).
Proof.
  induction s as [|c s IH]; [exact I|].
  cbn [lstrip_by]. destruct (f c) eqn:F; [exact IH|exact F].
Qed.

Lemma rstrip_by_head_kept (s : string) :
  head_kept f s -> head_kept f (rstrip_by f s).
Proof.
  destruct s as [|c s]; [intros _; exact I|]. cbn [head_kept]. intros F.
  destruct (rstrip_by_cons_keep f c s F) as [r ->]. exact F.
Qed.

Lemma lstrip_by_fixed (s : string) : head_kept f s -> lstrip_by f s = s.
Proof.
  destruct s as [|c s]; [reflexivity|]. cbn [head_kept lstrip_by].
  intros ->. reflexivity.
Qed.

Lemma strip_by_idem (s : string) : strip_by f (strip_by f s) = strip_by f s.
Proof.
  unfold strip_by.
  rewrite (lstrip_by_fixed (rstrip_by f (lstrip_by f s))).
  - apply rstrip_by_idem.
  - apply rstrip_by_head_kept, lstrip_by_head_kept.
Qed.

Lemma one_line_lstrip_by (s : string) :
  one_line s = true -> one_line (lstrip_by f s) = true.
Proof.
  induction s as [|c s IH]; [reflexivity|].
  intros H. cbn [lstrip_by]. destruct (f c); [|exact H].
  rewrite one_line_cons in H. apply andb_true_iff in H as [_ H]. exact (IH H).
Qed.

Lemma one_line_rstrip_by (s : string) :
  one_line s = true -> one_line (rstrip_by f s) = true.
Proof.
  induction s as [|c s IH]; [reflexivity|].
  rewrite one_line_cons. intros [Hc Hs]%andb_true_iff.
  rewrite rstrip_by_cons. specialize (IH Hs).
  destruct (rstrip_by f s) as [|d r].
  - destruct (f c); [reflexivity|]. rewrite one_line_cons, Hc. reflexivity.
  - rewrite one_line_cons, Hc, IH. reflexivity.
Qed.

Lemma one_line_strip_by (s : string) :
  one_line s = true -> one_line (strip_by f s) = true.
Proof.
  intros H. unfold strip_by. apply one_line_rstrip_by, one_line_lstrip_by, H.
Qed.

End Trimming.

Section TrimmedLines.

Lemma strip_idem (s : string) : strip (strip s) = strip s.
Proof. apply strip_by_idem. Qed.

Lemma one_line_strip (s : string) : one_line s = true -> one_line (strip s) = true.
Proof. apply one_line_strip_by. Qed.

Lemma truthy_true (s : string) : truthy s = true <-> s <> "".
Proof. destruct s; cbv; split; congruence. Qed.

Lemma split_lines_one_line (s : string) :
  Forall (fun l => one_line l = true) (split newline s).
Proof.
  induction s as [|c s IH]; [repeat constructor|].
  rewrite split_cons. destruct (Ascii.eqb c newline) eqn:E.
  - constructor; [reflexivity|exact IH].
  - pose proof (split_not_nil newline s) as Hne.
    destruct (split newline s) as [|h t]; [contradiction|].
    apply Forall_cons_iff in IH as [Hh Ht]. constructor; [|exact Ht].
    rewrite one_line_cons, E, Hh. reflexivity.
Qed.

Lemma clean_strip (l : string) :
  one_line l = true -> truthy (strip l) = true -> clean_line (strip l).
Proof.
  intros H1 Ht. split; [apply truthy_true, Ht|].
  split; [apply strip_idem|apply one_line_strip, H1].
Qed.

Lemma kept_lines_cons (l : string) (ls : list string) :
  kept_lines (l :: ls) = (kept_lines [l] ++ kept_lines ls)%list.
Proof.
  unfold kept_lines. cbn [map List.filter].
  destruct (truthy (strip l)); reflexivity.
Qed.

Lemma kept_lines_clean (ls : list string) :
  Forall (fun l => one_line l = true) ls -> Forall clean_line (kept_lines ls).
Proof.
  induction 1 as [|l ls Hl _ IH]; [constructor|].
  rewrite kept_lines_cons. apply Forall_app. split; [|exact IH].
  unfold kept_lines. cbn [map List.filter].
  destruct (truthy (strip l)) eqn:Ht; [|constructor].
  constructor; [|constructor]. apply clean_strip; assumption.
Qed.

(** Joining clean lines and splitting the text gives the lines back. *)
Lemma split_join_clean (ls : list string) :
  Forall clean_line ls -> ls <> [] -> split newline (join nl ls) = ls.
Proof.
  intros Hc Hne. rewrite split_join by exact Hne.
  apply flat_map_split_lines.
  eapply Forall_impl; [exact Hc|]. intros l (_ & _ & H). exact H.
Qed.

End TrimmedLines.

(** ** The sections dict *)

Section SectionsDict.

Context {V : Type}.

Lemma dict_set_keys_in (d : list (SplunkRole * V)) (k x : SplunkRole) (v : V) :
  In x (map fst (dict_set d k v)) -> x = k \/ In x (map fst d).
Proof.
  induction d as [|[k' v'] d IH]; cbn [dict_set map fst In].
  - intros [<- | []]. left. reflexivity.
  - destruct (decide (k' = k)) as [->|Hne]; cbn [map fst In].
    + intros [<- | H]; [left; reflexivity|right; right; exact H].
    + intros [<- | H]; [right; left; reflexivity|].
      destruct (IH H) as [-> | H']; [left; reflexivity|right; right; exact H'].
Qed.

Lemma dict_set_NoDup (d : list (SplunkRole * V)) (k : SplunkRole) (v : V) :
  List.NoDup (map fst d) -> List.NoDup (map fst (dict_set d k v)).
Proof.
  induction d as [|[k' v'] d IH]; cbn [dict_set map fst]; intros Hnd.
  - constructor; [intros []|constructor].
  - apply List.NoDup_cons_iff in Hnd as [Hnotin Hnd].
    destruct (decide (k' = k)) as [->|Hne]; cbn [map fst].
    + constructor; assumption.
    + constructor; [|exact (IH Hnd)].
      intros Hin. apply dict_set_keys_in in Hin as [-> | Hin]; contradiction.
Qed.

Lemma dict_set_fresh (d : list (SplunkRole * V)) (k : SplunkRole) (v : V) :
  ~ In k (map fst d) -> dict_set d k v = (d ++ [(k, v)])%list.
Proof.
  induction d as [|[k' v'] d IH]; cbn [dict_set map fst In app]; intros Hn.
  - reflexivity.
  - destruct (decide (k' = k)) as [->|Hne]; [exfalso; apply Hn; left; reflexivity|].
    rewrite IH by (intros H; apply Hn; right; exact H). reflexivity.
Qed.

Lemma dict_set_In_same (d : list (SplunkRole * V)) (k : SplunkRole) (v : V) :
  In (k, v) (dict_set d k v).
Proof.
  induction d as [|[k' v'] d IH]; cbn [dict_set].
  - left. reflexivity.
  - destruct (decide (k' = k)); [left; reflexivity|right; exact IH].
Qed.

Lemma dict_set_In_other (d : list (SplunkRole * V)) (k k' : SplunkRole) (v v' : V) :
  k' <> k -> In (k', v') d -> In (k', v') (dict_set d k v).
Proof.
  intros Hne. induction d as [|[k0 v0] d IH]; cbn [dict_set In]; [intros []|].
  intros [E | H].
  - injection E as -> ->. destruct (decide (k' = k)); [contradiction|].
    left. reflexivity.
  - destruct (decide (k0 = k)); right; [exact H|exact (IH H)].
Qed.

Lemma dict_set_Forall (P : SplunkRole * V -> Prop) (d : list (SplunkRole * V))
  (k : SplunkRole) (v : V) :
  Forall P d -> P (k, v) -> Forall P (dict_set d k v).
Proof.
  intros Hd Hk. induction Hd as [|[k' v'] d Hx Hd IH]; cbn [dict_set].
  - constructor; [exact Hk|constructor].
  - destruct (decide (k' = k)); constructor; assumption.
Qed.

Lemma keys_unique (d : list (SplunkRole * V)) (k : SplunkRole) (v v' : V) :
  List.NoDup (map fst d) -> In (k, v) d -> In (k, v') d -> v = v'.
Proof.
  induction d as [|[k0 v0] d IH]; cbn [map fst In]; [intros _ []|].
  intros Hnd. apply List.NoDup_cons_iff in Hnd as [Hnotin Hnd].
  intros [E1 | H1] [E2 | H2].
  - congruence.
  - injection E1 as -> ->. exfalso. apply Hnotin.
    apply (in_map fst) in H2. exact H2.
  - injection E2 as -> ->. exfalso. apply Hnotin.
    apply (in_map fst) in H1. exact H1.
  - exact (IH Hnd H1 H2).
Qed.

End SectionsDict.

Section SplitInvariants.

Lemma split_step_NoDup (st : SplitState) (line0 : string) :
  List.NoDup (map fst (sections st)) ->
  List.NoDup (map fst (sections (split_step st line0))).
Proof.
  intros H. unfold split_step.
  destruct (find_begin role_markers (strip line0)) as [r|];
    cbn [current_role sections current_section].
  - destruct (contains "###END" (strip line0)); cbn [sections].
    + apply dict_set_NoDup, H.
    + destruct (truthy (strip line0)); exact H.
  - destruct (current_role st) as [r|]; [|exact H].
    destruct (contains "###END" (strip line0)); cbn [sections].
    + apply dict_set_NoDup, H.
    + destruct (truthy (strip line0)); exact H.
Qed.

Lemma fold_split_step_NoDup (lines : list string) :
  forall st, List.NoDup (map fst (sections st)) ->
             List.NoDup (map fst (sections (fold_left split_step lines st))).
Proof.
  induction lines as [|l lines IH]; intros st H; cbn [fold_left]; [exact H|].
  apply IH, split_step_NoDup, H.
Qed.

(** With no role current, a line that begins no role changes nothing. *)
Lemma split_step_idle (st : SplitState) (line0 : string) :
  current_role st = None -> no_begin line0 = true -> split_step st line0 = st.
Proof.
  intros Hr Hb. unfold split_step, no_begin in *.
  destruct (find_begin role_markers (strip line0)); [discriminate|].
  rewrite Hr. reflexivity.
Qed.

Lemma fold_split_step_idle (lines : list string) (st : SplitState) :
  current_role st = None -> forallb no_begin lines = true ->
  fold_left split_step lines st = st.
Proof.
  intros Hr. induction lines as [|l lines IH]; cbn [fold_left forallb]; [reflexivity|].
  intros [Hl Hls]%andb_true_iff. rewrite split_step_idle by assumption.
  exact (IH Hls).
Qed.

Lemma split_step_clean (st : SplitState) (line0 : string) :
  one_line line0 = true -> clean_state st -> clean_state (split_step st line0).
Proof.
  intros Hl [Hcur Hsec]. unfold split_step.
  assert (Hcommit : forall (r : SplunkRole) (ls : list string),
             Forall clean_line ls ->
             clean_state (mkSplitState (dict_set (sections st) r (join nl ls)) None [])).
  { intros r ls Hls. split; cbn [current_section sections]; [constructor|].
    apply dict_set_Forall; [exact Hsec|]. exists ls. split; [reflexivity|exact Hls]. }
  assert (Hpush : forall (r : SplunkRole) (ls : list string),
             Forall clean_line ls -> clean_line (strip line0) ->
             clean_state (mkSplitState (sections st) (Some r) (ls ++ [strip line0]))).
  { intros r ls Hls Ht. split; cbn [current_section sections]; [|exact Hsec].
    apply Forall_app. split; [exact Hls|].
    constructor; [exact Ht|constructor]. }
  destruct (find_begin role_markers (strip line0)) as [r|];
    cbn [current_role sections current_section].
  - destruct (contains "###END" (strip line0)); [apply Hcommit; constructor|].
    destruct (truthy (strip line0)) eqn:Ht.
    + apply (Hpush r []); [constructor|apply clean_strip; assumption].
    + split; cbn [current_section sections]; [constructor|exact Hsec].
  - destruct (current_role st) as [r|]; [|split; assumption].
    destruct (contains "###END" (strip line0)); [apply Hcommit; exact Hcur|].
    destruct (truthy (strip line0)) eqn:Ht.
    + apply Hpush; [exact Hcur|apply clean_strip; assumption].
    + split; assumption.
Qed.

Lemma fold_split_step_clean (lines : list string) :
  Forall (fun l => one_line l = true) lines ->
  forall st, clean_state st -> clean_state (fold_left split_step lines st).
Proof.
  induction 1 as [|l lines Hl _ IH]; intros st H; cbn [fold_left]; [exact H|].
  apply IH, split_step_clean; assumption.
Qed.

Lemma _split_by_roles_NoDup (content : string) :
  List.NoDup (map fst (_split_by_roles content)).
Proof.
  unfold _split_by_roles, split_lines. apply fold_split_step_NoDup. constructor.
Qed.

End SplitInvariants.

(** X1.  The sections that [_split_by_roles] returns have pairwise
    distinct roles, so there are at most five of them. *)
Theorem X1_sections_have_distinct_roles (content : string) :
  List.NoDup (map fst (_split_by_roles content))
  /\ length (_split_by_roles content) <= 5.
Proof.
  pose proof (_split_by_roles_NoDup content) as H.
  split; [exact H|].
  rewrite <- (length_map fst).
  apply (List.NoDup_incl_length H
           (l' := [SEARCH_HEAD; INDEXER; CLUSTER_MANAGER; SHC_DEPLOYER;
                   HTTP_EVENT_COLLECTOR])).
  intros r _. destruct r; cbn; tauto.
Qed.

(** X2.  A document in which no line begins a role has no sections. *)
Theorem X2_no_begin_no_sections (content : string) :
  forallb no_begin (split newline content) = true ->
  _split_by_roles content = [].
Proof.
  intros H. unfold _split_by_roles, split_lines.
  rewrite fold_split_step_idle; [reflexivity|reflexivity|exact H].
Qed.

Lemma X2_no_begin_witness :
  forallb no_begin
    (split newline (join nl ["###server.conf###"; "[httpServer]"; "a = 1"; "###END###"]))
  = true
  /\ _split_by_roles (join nl ["###server.conf###"; "[httpServer]"; "a = 1"; "###END###"])
     = [].
Proof.
  assert (H : forallb no_begin
    (split newline (join nl ["###server.conf###"; "[httpServer]"; "a = 1"; "###END###"]))
    = true) by reflexivity.
  split; [exact H|]. exact (X2_no_begin_no_sections _ H).
Defined.

(** X3.  The text of every section is empty or is made of lines that
    are non-empty, trimmed and free of line breaks: when
    [_parse_role_section] splits and trims it again, it gets the
    collected lines back unchanged. *)
Theorem X3_section_lines_are_clean (content : string) (r : SplunkRole) (sec : string) :
  In (r, sec) (_split_by_roles content) ->
  sec = "" \/ Forall clean_line (split newline sec).
Proof.
  intros Hin.
  assert (Hc : clean_state (split_lines (split newline content))).
  { apply fold_split_step_clean; [apply split_lines_one_line|].
    split; constructor. }
  destruct Hc as [_ Hsec].
  apply List.Forall_forall with (x := (r, sec)) in Hsec; [|exact Hin].
  destruct Hsec as (ls & Hj & Hls). cbn [snd] in Hj. subst sec.
  destruct ls as [|l ls]; [left; reflexivity|right].
  rewrite split_join_clean by (exact Hls || discriminate). exact Hls.
Qed.

Lemma X3_section_lines_witness :
  In (INDEXER,
      join nl ["###BEGIN INDEXERS###"; "###server.conf###"; "[clustering]";
               "heartbeat_period = 10"; "cxn_timeout = 300"])
    (_split_by_roles test_config)
  /\ Forall clean_line
       (split newline
          (join nl ["###BEGIN INDEXERS###"; "###server.conf###"; "[clustering]";
                    "heartbeat_period = 10"; "cxn_timeout = 300"])).
Proof.
  assert (H : In (INDEXER,
      join nl ["###BEGIN INDEXERS###"; "###server.conf###"; "[clustering]";
               "heartbeat_period = 10"; "cxn_timeout = 300"])
    (_split_by_roles test_config)) by (right; left; reflexivity).
  split; [exact H|].
  destruct (X3_section_lines_are_clean _ _ _ H) as [E | Hc];
    [discriminate E|exact Hc].
Defined.

(** ** Documents made of complete role blocks *)

Section Blocks.

Lemma split_step_begins (st : SplitState) (line0 : string) (r : SplunkRole) :
  find_begin role_markers (strip line0) = Some r ->
  has_end line0 = false ->
  split_step st line0 = mkSplitState (sections st) (Some r) (kept_lines [line0]).
Proof.
  intros Hb He. unfold split_step, has_end, kept_lines in *. rewrite Hb.
  cbn [current_role sections current_section map List.filter]. rewrite He.
  destruct (truthy (strip line0)); reflexivity.
Qed.

Lemma split_step_inside (secs : list (SplunkRole * string)) (r : SplunkRole)
  (cur : list string) (line0 : string) :
  no_begin line0 = true -> has_end line0 = false ->
  split_step (mkSplitState secs (Some r) cur) line0
  = mkSplitState secs (Some r) (cur ++ kept_lines [line0]).
Proof.
  intros Hb He. unfold split_step, no_begin, has_end, kept_lines in *.
  destruct (find_begin role_markers (strip line0)); [discriminate|].
  cbn [current_role sections current_section map List.filter]. rewrite He.
  destruct (truthy (strip line0)); [reflexivity|].
  rewrite app_nil_r. reflexivity.
Qed.

Lemma fold_split_step_inside (body : list string) :
  forall (secs : list (SplunkRole * string)) (r : SplunkRole) (cur : list string),
    forallb (fun l => no_begin l && negb (has_end l)) body = true ->
    fold_left split_step body (mkSplitState secs (Some r) cur)
    = mkSplitState secs (Some r) (cur ++ kept_lines body).
Proof.
  induction body as [|l body IH]; intros secs r cur; cbn [fold_left forallb].
  - intros _. unfold kept_lines. cbn [map List.filter]. rewrite app_nil_r. reflexivity.
  - intros [[Hb He]%andb_true_iff Hrest]%andb_true_iff.
    apply negb_true_iff in He.
    rewrite split_step_inside by assumption.
    rewrite (IH _ _ _ Hrest), (kept_lines_cons l body), app_assoc. reflexivity.
Qed.

Lemma split_step_ends (secs : list (SplunkRole * string)) (r : SplunkRole)
  (cur : list string) (line0 : string) :
  no_begin line0 = true -> has_end line0 = true ->
  split_step (mkSplitState secs (Some r) cur) line0
  = mkSplitState (dict_set secs r (join nl cur)) None [].
Proof.
  intros Hb He. unfold split_step, no_begin, has_end in *.
  destruct (find_begin role_markers (strip line0)); [discriminate|].
  cbn [current_role sections current_section]. rewrite He. reflexivity.
Qed.

(** A complete block, met with no role current, sets its role's section
    and leaves no role current. *)
Lemma fold_split_step_block (b : RoleBlock) (st : SplitState) :
  block_ok b = true -> current_role st = None ->
  fold_left split_step (block_lines b) st
  = mkSplitState (dict_set (sections st) (rb_role b) (block_section b)) None [].
Proof.
  unfold block_ok.
  intros [[[[[Hbefore Hbegin]%andb_true_iff Hnoend]%andb_true_iff
             Hbody]%andb_true_iff Hend1]%andb_true_iff Hend2]%andb_true_iff Hst.
  apply bool_decide_eq_true in Hbegin. apply negb_true_iff in Hnoend.
  unfold block_lines. rewrite fold_left_app.
  rewrite (fold_split_step_idle (rb_before b) st Hst Hbefore).
  cbn [fold_left]. rewrite (split_step_begins st _ _ Hbegin Hnoend).
  rewrite fold_left_app, (fold_split_step_inside _ _ _ _ Hbody).
  cbn [fold_left]. rewrite split_step_ends by assumption.
  unfold block_section. rewrite <- kept_lines_cons. reflexivity.
Qed.

Lemma fold_split_step_blocks (blocks : list RoleBlock) :
  forall st,
    forallb block_ok blocks = true -> current_role st = None ->
    let st' := fold_left split_step (flat_map block_lines blocks) st in
    current_role st' = None
    /\ sections st'
       = fold_left (fun d b => dict_set d (rb_role b) (block_section b))
           blocks (sections st).
Proof.
  induction blocks as [|b blocks IH]; intros st; cbn [flat_map forallb fold_left].
  - intros _ Hst. split; [exact Hst|reflexivity].
  - intros [Hb Hbs]%andb_true_iff Hst. cbv zeta.
    rewrite fold_left_app, (fold_split_step_block b st Hb Hst).
    specialize (IH (mkSplitState (dict_set (sections st) (rb_role b) (block_section b))
                      None []) Hbs eq_refl).
    cbv zeta in IH. cbn [sections] in IH. exact IH.
Qed.

Lemma sections_of_blocks (blocks : list RoleBlock) (trailing : list string) :
  forallb block_ok blocks = true ->
  forallb no_begin trailing = true ->
  sections (split_lines (flat_map block_lines blocks ++ trailing))
  = fold_left (fun d b => dict_set d (rb_role b) (block_section b)) blocks [].
Proof.
  intros Hb Ht. unfold split_lines. rewrite fold_left_app.
  destruct (fold_split_step_blocks blocks (mkSplitState [] None []) Hb eq_refl)
    as [Hrole Hsec].
  rewrite (fold_split_step_idle trailing _ Hrole Ht). exact Hsec.
Qed.

Lemma fold_dict_set_distinct (blocks : list RoleBlock) :
  forall d : list (SplunkRole * string),
    List.NoDup (map fst d ++ map rb_role blocks) ->
    fold_left (fun d b => dict_set d (rb_role b) (block_section b)) blocks d
    = (d ++ map (fun b => (rb_role b, block_section b)) blocks)%list.
Proof.
  induction blocks as [|b blocks IH]; intros d Hnd; cbn [fold_left map].
  - rewrite app_nil_r. reflexivity.
  - cbn [map] in Hnd.
    rewrite dict_set_fresh.
    + rewrite IH.
      * rewrite <- app_assoc. reflexivity.
      * rewrite map_app. cbn [map fst]. rewrite <- app_assoc. exact Hnd.
    + intros Hin. apply List.NoDup_remove_2 in Hnd. apply Hnd.
      apply in_or_app. left. exact Hin.
Qed.

Lemma fold_dict_set_last (post : list RoleBlock) :
  forall (d : list (SplunkRole * string)) (k : SplunkRole) (v : string),
    In (k, v) d ->
    Forall (fun b => rb_role b <> k) post ->
    In (k, v)
      (fold_left (fun d b => dict_set d (rb_role b) (block_section b)) post d).
Proof.
  induction post as [|b post IH]; intros d k v Hin Hpost; cbn [fold_left];
    [exact Hin|].
  apply Forall_cons_iff in Hpost as [Hb Hpost].
  apply IH; [|exact Hpost].
  apply dict_set_In_other; [congruence|exact Hin].
Qed.

End Blocks.

(** X4.  A document made of complete role blocks with pairwise distinct
    roles (each block: lines that begin no role, a line that begins the
    role, lines without begin or end text, a line with the end text) and
    then lines that begin no role has one section for each block, in
    document order: the trimmed non-empty lines of the block, begin line
    included and end line excluded, joined by line breaks. *)
Theorem X4_sections_of_complete_blocks
  (blocks : list RoleBlock) (trailing : list string) :
  Forall (fun l => one_line l = true) (flat_map block_lines blocks ++ trailing) ->
  forallb block_ok blocks = true ->
  forallb no_begin trailing = true ->
  List.NoDup (map rb_role blocks) ->
  _split_by_roles (join nl (flat_map block_lines blocks ++ trailing))
  = map (fun b => (rb_role b, block_section b)) blocks.
Proof.
  intros Hl Hb Ht Hnd.
  rewrite _split_by_roles_join by exact Hl.
  rewrite sections_of_blocks by assumption.
  apply (fold_dict_set_distinct blocks []). exact Hnd.
Qed.

Lemma X4_sections_of_complete_blocks_witness :
  Forall (fun l => one_line l = true)
    (flat_map block_lines [search_heads_block; indexers_block] ++ ["# end"; ""])
  /\ forallb block_ok [search_heads_block; indexers_block] = true
  /\ forallb no_begin ["# end"; ""] = true
  /\ List.NoDup (map rb_role [search_heads_block; indexers_block])
  /\ _split_by_roles
       (join nl (flat_map block_lines [search_heads_block; indexers_block]
                   ++ ["# end"; ""]))
     = [ (SEARCH_HEAD,
          join nl ["###BEGIN SEARCH HEADS###"; "###server.conf###"; "[httpServer]";
                   "busyKeepAliveIdleTimeout = 120"]);
         (INDEXER,
          join nl ["###BEGIN INDEXERS###"; "###server.conf###"; "[clustering]";
                   "heartbeat_period = 10"]) ].
Proof.
  assert (H1 : Forall (fun l => one_line l = true)
    (flat_map block_lines [search_heads_block; indexers_block] ++ ["# end"; ""]))
    by (repeat constructor).
  assert (H2 : forallb block_ok [search_heads_block; indexers_block] = true)
    by reflexivity.
  assert (H3 : forallb no_begin ["# end"; ""] = true) by reflexivity.
  assert (H4 : List.NoDup (map rb_role [search_heads_block; indexers_block])).
  { repeat constructor; cbn; intuition discriminate. }
  repeat (split; [assumption|]).
  exact (X4_sections_of_complete_blocks _ _ H1 H2 H3 H4).
Defined.

(** X5.  In a document made of complete role blocks, whatever their
    roles, the section of a role is that of the last block with the
    role: the sections of its earlier blocks are replaced, not added
    to. *)
Theorem X5_last_block_of_a_role_wins
  (pre post : list RoleBlock) (b : RoleBlock) (trailing : list string) :
  Forall (fun l => one_line l = true)
    (flat_map block_lines (pre ++ b :: post) ++ trailing) ->
  forallb block_ok (pre ++ b :: post) = true ->
  forallb no_begin trailing = true ->
  Forall (fun b' => rb_role b' <> rb_role b) post ->
  forall sec,
    In (rb_role b, sec)
      (_split_by_roles (join nl (flat_map block_lines (pre ++ b :: post) ++ trailing)))
    <-> sec = block_section b.
Proof.
  intros Hl Hb Ht Hpost sec.
  pose proof (_split_by_roles_NoDup
                (join nl (flat_map block_lines (pre ++ b :: post) ++ trailing)))
    as Hnd.
  assert (Hin : In (rb_role b, block_section b)
                  (_split_by_roles
                     (join nl (flat_map block_lines (pre ++ b :: post) ++ trailing)))).
  { rewrite _split_by_roles_join by exact Hl.
    rewrite sections_of_blocks by assumption.
    rewrite fold_left_app. cbn [fold_left].
    apply fold_dict_set_last; [apply dict_set_In_same|exact Hpost]. }
  split.
  - intros H. exact (keys_unique _ _ _ _ Hnd H Hin).
  - intros ->. exact Hin.
Qed.

Lemma X5_last_block_witness :
  Forall (fun l => one_line l = true)
    (flat_map block_lines ([search_heads_block; indexers_block]
                             ++ search_heads_again :: []) ++ [])
  /\ forallb block_ok ([search_heads_block; indexers_block]
                        ++ search_heads_again :: []) = true
  /\ (In (SEARCH_HEAD,
          join nl ["###BEGIN SEARCH HEADS###"; "###limits.conf###"; "[search]";
                   "remote_timeline_connection_timeout = 30"])
        (_split_by_roles
           (join nl (flat_map block_lines
                       ([search_heads_block; indexers_block]
                          ++ search_heads_again :: []) ++ []))))
  /\ ~ In (SEARCH_HEAD, block_section search_heads_block)
        (_split_by_roles
           (join nl (flat_map block_lines
                       ([search_heads_block; indexers_block]
                          ++ search_heads_again :: []) ++ []))).
Proof.
  assert (H1 : Forall (fun l => one_line l = true)
    (flat_map block_lines ([search_heads_block; indexers_block]
                             ++ search_heads_again :: []) ++ []))
    by (repeat constructor).
  assert (H2 : forallb block_ok ([search_heads_block; indexers_block]
                        ++ search_heads_again :: []) = true) by reflexivity.
  pose proof (X5_last_block_of_a_role_wins
                [search_heads_block; indexers_block] [] search_heads_again []
                H1 H2 eq_refl (List.Forall_nil _)) as H.
  split; [exact H1|]. split; [exact H2|]. split.
  - apply (proj2 (H _)). reflexivity.
  - intros Hin. apply (proj1 (H _)) in Hin. vm_compute in Hin. discriminate Hin.
Defined.

(** ** More on extraction *)

Section Extraction.

Variables target_stanza target_setting : string.

Abbreviation scan := (btool_scan target_stanza target_setting).
Abbreviation hit := (is_hit target_stanza target_setting).

Lemma hit_has_sides (done : list string) (l : string) :
  hit done l = true -> exists k v, sides l = Some (k, v).
Proof.
  unfold is_hit. intros H. apply andb_true_iff in H as [_ H].
  destruct (sides l) as [[k v]|]; [eauto|discriminate].
Qed.

(** A value that the scan returns comes from a first hit. *)
Lemma scan_some_first_hit (lines : list string) :
  forall (done : list string) (v : string),
    scan (stanza_in_effect done) lines = Some v ->
    exists pre line post k,
      lines = (pre ++ line :: post)%list
      /\ hit (done ++ pre) line = true
      /\ (forall pre' l' post',
             pre = (pre' ++ l' :: post')%list -> hit (done ++ pre') l' = false)
      /\ sides line = Some (k, v).
Proof.
  induction lines as [|l lines IH]; intros done v Hs; [discriminate|].
  destruct (hit done l) eqn:Hh.
  - destruct (hit_has_sides done l Hh) as (k & v0 & Hsides).
    rewrite (scan_step_hit _ _ done l lines k v0 Hh Hsides) in Hs.
    injection Hs as ->.
    exists [], l, lines, k. rewrite app_nil_r.
    split; [reflexivity|]. split; [exact Hh|]. split; [|exact Hsides].
    intros pre' l' post' E. destruct pre'; discriminate E.
  - rewrite scan_step_no_hit in Hs by exact Hh.
    destruct (IH _ _ Hs) as (pre & line & post & k & -> & Hhit & Hbefore & Hsides).
    exists (l :: pre), line, post, k.
    split; [reflexivity|]. rewrite <- app_assoc in Hhit.
    split; [exact Hhit|]. split; [|exact Hsides].
    intros pre' l' post' E. destruct pre' as [|x pre'].
    + injection E as <- _. rewrite app_nil_r. exact Hh.
    + injection E as <- ->.
      specialize (Hbefore pre' l' post' eq_refl).
      rewrite <- app_assoc in Hbefore. exact Hbefore.
Qed.

Lemma drop_last_bracket (s : string) :
  s <> "" -> endswith s "]" = true -> s = drop_last s ++ "]".
Proof.
  induction s as [|c s IH]; [contradiction|]. intros _ He.
  destruct s as [|d s].
  - unfold endswith in He.
    destruct (String.eqb_spec (String c "") "]") as [E|_]; [|discriminate He].
    rewrite E. reflexivity.
  - change (drop_last (String c (String d s)))
      with (String c (drop_last (String d s))).
    change (String c (drop_last (String d s)) ++ "]")
      with (String c (drop_last (String d s) ++ "]")).
    f_equal. apply IH; [discriminate|].
    unfold endswith in He. fold endswith in He.
    destruct (String.eqb_spec (String c (String d s)) "]") as [E|_];
      [discriminate E|exact He].
Qed.

(** A line in brackets is the bracketed name. *)
Lemma bracket_line (l : string) :
  startswith l "[" = true -> endswith l "]" = true ->
  l = "[" ++ slice_1_m1 l ++ "]".
Proof.
  destruct l as [|c l]; [discriminate|].
  rewrite startswith_cons, startswith_empty, andb_true_r.
  intros Hc%Ascii.eqb_eq He. subst c.
  change ("[" ++ slice_1_m1 (String "[" l) ++ "]")
    with (String "[" (drop_last l ++ "]")).
  f_equal. apply drop_last_bracket.
  - intros ->. vm_compute in He. discriminate He.
  - unfold endswith in He. fold endswith in He.
    destruct (String.eqb_spec (String "[" l) "]") as [E|_]; [|exact He].
    discriminate E.
Qed.

Lemma stanza_in_effect_header (pre : list string) :
  stanza_is (stanza_in_effect pre) target_stanza = true ->
  exists h, In h pre /\ strip h = "[" ++ target_stanza ++ "]".
Proof.
  unfold stanza_in_effect, stanza_is.
  destruct (find is_stanza_header (rev pre)) as [h|] eqn:E; [|discriminate].
  intros Hn%String.eqb_eq.
  apply find_some in E as [Hin Hh]. exists h. split; [apply in_rev, Hin|].
  unfold is_stanza_header in Hh.
  apply andb_true_iff in Hh as [[_ H1]%andb_true_iff H2].
  rewrite <- Hn. apply bracket_line; assumption.
Qed.

Lemma split1_one_line (sep : ascii) (s l r : string) :
  split1 sep s = Some (l, r) -> one_line s = true ->
  one_line l = true /\ one_line r = true.
Proof.
  revert l r. induction s as [|c s IH]; intros l r; [discriminate|].
  cbn [split1]. rewrite one_line_cons. intros H [Hc Hs]%andb_true_iff.
  destruct (Ascii.eqb c sep).
  - injection H as <- <-. split; [reflexivity|exact Hs].
  - destruct (split1 sep s) as [[l0 r0]|]; [|discriminate].
    injection H as <- <-. destruct (IH _ _ eq_refl Hs) as [Hl Hr].
    split; [|exact Hr]. rewrite one_line_cons, Hc, Hl. reflexivity.
Qed.

Lemma sides_value_clean (line k v : string) :
  one_line line = true -> sides line = Some (k, v) ->
  strip v = v /\ one_line v = true.
Proof.
  unfold sides. intros Hl H.
  destruct (split1 "=" (strip line)) as [[k0 v0]|] eqn:E; [|discriminate].
  injection H as <- <-.
  destruct (split1_one_line _ _ _ _ E (one_line_strip _ Hl)) as [_ Hv].
  split; [apply strip_idem|apply one_line_strip, Hv].
Qed.

(** Skipped lines can all be taken out before the scan. *)
Lemma scan_filter_skipped (lines : list string) :
  forall cs,
    scan cs lines = scan cs (List.filter (fun l => negb (is_skipped l)) lines).
Proof.
  induction lines as [|l lines IH]; intros cs; [reflexivity|].
  cbn [List.filter]. unfold is_skipped at 1.
  destruct (negb (truthy (strip l)) || startswith (strip l) "#") eqn:Hskip;
    cbn [negb].
  - rewrite btool_scan_cons. cbv zeta. rewrite Hskip. apply IH.
  - rewrite !btool_scan_cons. cbv zeta. rewrite Hskip.
    repeat match goal with
           | |- context [if ?b then _ else _] => destruct b
           | |- context [match ?o with Some _ => _ | None => _ end] => destruct o
           | |- context [let '(_, _) := ?p in _] => destruct p
           end; auto.
Qed.

End Extraction.

(** X6.  A value returned by extraction is the trimmed right side of
    the first hit: a line that is not skipped and is no header, stands
    under a header naming the target stanza, contains [=], and has the
    target setting as its trimmed left side. *)
Theorem X6_extracted_value_is_first_hit
  (output target_stanza target_setting v : string) :
  parse_btool_output output target_stanza target_setting = Some v ->
  exists pre line post k,
    split newline output = (pre ++ line :: post)%list
    /\ is_hit target_stanza target_setting pre line = true
    /\ (forall pre' l' post',
           pre = (pre' ++ l' :: post')%list ->
           is_hit target_stanza target_setting pre' l' = false)
    /\ sides line = Some (k, v).
Proof.
  unfold parse_btool_output. intros H.
  exact (scan_some_first_hit target_stanza target_setting _ [] v H).
Qed.

Lemma X6_extracted_value_witness :
  parse_btool_output sample_output "general" "busyKeepAliveIdleTimeout" = Some "5"
  /\ exists pre line post k,
       split newline sample_output = (pre ++ line :: post)%list
       /\ is_hit "general" "busyKeepAliveIdleTimeout" pre line = true
       /\ (forall pre' l' post',
              pre = (pre' ++ l' :: post')%list ->
              is_hit "general" "busyKeepAliveIdleTimeout" pre' l' = false)
       /\ sides line = Some (k, "5").
Proof.
  assert (H : parse_btool_output sample_output "general" "busyKeepAliveIdleTimeout"
              = Some "5") by reflexivity.
  split; [exact H|]. exact (X6_extracted_value_is_first_hit _ _ _ _ H).
Defined.

(** X7.  Extraction finds nothing when no line of the text, trimmed, is
    the target stanza in brackets: settings before the first header and
    settings of other stanzas are never returned. *)
Theorem X7_no_header_no_value (output target_stanza target_setting : string) :
  (forall l, In l (split newline output) ->
             strip l <> "[" ++ target_stanza ++ "]") ->
  parse_btool_output output target_stanza target_setting = None.
Proof.
  intros Hno.
  destruct (parse_btool_output output target_stanza target_setting) as [v|] eqn:E;
    [|reflexivity].
  exfalso. unfold parse_btool_output in E.
  destruct (scan_some_first_hit target_stanza target_setting _ [] v E)
    as (pre & line & post & k & Hsplit & Hhit & _ & _).
  cbn [app] in Hhit. unfold is_hit in Hhit.
  apply andb_true_iff in Hhit as [[[_ Hst]%andb_true_iff _]%andb_true_iff _].
  destruct (stanza_in_effect_header target_stanza pre Hst) as (h & Hin & Hh).
  apply (Hno h); [|exact Hh].
  rewrite Hsplit. apply in_or_app. left. exact Hin.
Qed.

Lemma X7_no_header_witness :
  (forall l, In l (split newline sample_output) -> strip l <> "[" ++ "sslConfig" ++ "]")
  /\ parse_btool_output sample_output "sslConfig" "busyKeepAliveIdleTimeout" = None.
Proof.
  assert (H : forall l, In l (split newline sample_output) ->
                        strip l <> "[" ++ "sslConfig" ++ "]").
  { intros l Hin. vm_compute in Hin.
    repeat (destruct Hin as [<- | Hin]; [vm_compute; discriminate|]).
    destruct Hin. }
  split; [exact H|]. exact (X7_no_header_no_value _ _ _ H).
Defined.

(** X8.  An extracted value is trimmed and has no line break in it. *)
Theorem X8_extracted_value_is_trimmed
  (output target_stanza target_setting v : string) :
  parse_btool_output output target_stanza target_setting = Some v ->
  strip v = v /\ one_line v = true.
Proof.
  unfold parse_btool_output. intros H.
  destruct (scan_some_first_hit target_stanza target_setting _ [] v H)
    as (pre & line & post & k & Hsplit & _ & _ & Hsides).
  apply (sides_value_clean line k v); [|exact Hsides].
  pose proof (split_lines_one_line output) as Hl. rewrite Hsplit in Hl.
  apply Forall_app in Hl as [_ Hl]. apply Forall_cons_iff in Hl as [Hl _]. exact Hl.
Qed.

Lemma X8_extracted_value_witness :
  parse_btool_output (join nl ["[s]"; "  key =   some value   "]) "s" "key"
  = Some "some value"
  /\ strip "some value" = "some value" /\ one_line "some value" = true.
Proof.
  assert (H : parse_btool_output (join nl ["[s]"; "  key =   some value   "]) "s" "key"
              = Some "some value") by reflexivity.
  split; [exact H|]. exact (X8_extracted_value_is_trimmed _ _ _ _ H).
Defined.

(** X9.  Extraction from a text is extraction from its lines with the
    blank lines and the comment lines left out. *)
Theorem X9_extraction_ignores_skipped_lines
  (output target_stanza target_setting : string) :
  parse_btool_output output target_stanza target_setting
  = btool_scan target_stanza target_setting None
      (List.filter (fun l => negb (is_skipped l)) (split newline output)).
Proof. apply scan_filter_skipped. Qed.

(** ** A value matches itself *)

Section FloatFacts.

Import SpecFloat.

Lemma shr_1_nonneg (mrs : shr_record) :
  (0 <= shr_m mrs)%Z -> (0 <= shr_m (shr_1 mrs))%Z.
Proof.
  destruct mrs as [m r s]. cbn [shr_m shr_1].
  destruct m as [|[p|p|]|[p|p|]]; cbn [shr_m]; lia.
Qed.

Lemma iter_pos_shr_1_nonneg (p : positive) :
  forall mrs, (0 <= shr_m mrs)%Z -> (0 <= shr_m (iter_pos shr_1 p mrs))%Z.
Proof.
  induction p as [p IH|p IH|]; intros mrs H; cbn [iter_pos].
  - apply IH, IH, shr_1_nonneg, H.
  - apply IH, IH, H.
  - apply shr_1_nonneg, H.
Qed.

Lemma shr_fexp_nonneg (prec emax m e : Z) (l : location) :
  (0 <= m)%Z -> (0 <= shr_m (fst (shr_fexp prec emax m e l)))%Z.
Proof.
  intros H. unfold shr_fexp, shr.
  assert (H0 : (0 <= shr_m (shr_record_of_loc m l))%Z)
    by (destruct l as [|[]]; exact H).
  destruct (fexp prec emax (Zdigits2 m + e) - e)%Z; cbn [fst]; try exact H0.
  apply iter_pos_shr_1_nonneg, H0.
Qed.

Lemma round_nearest_even_nonneg (m : Z) (l : location) :
  (0 <= m)%Z -> (0 <= round_nearest_even m l)%Z.
Proof.
  intros H. unfold round_nearest_even.
  destruct l as [|[]]; try destruct (Z.even m); lia.
Qed.

Lemma binary_round_aux_not_nan (prec emax : Z) (sx : bool) (mx ex : Z) (lx : location) :
  (0 <= mx)%Z -> is_nan (binary_round_aux prec emax sx mx ex lx) = false.
Proof.
  intros H. unfold binary_round_aux.
  pose proof (shr_fexp_nonneg prec emax mx ex lx H) as H1.
  destruct (shr_fexp prec emax mx ex lx) as [mrs' e']. cbn [fst] in H1.
  pose proof (shr_fexp_nonneg prec emax
                (round_nearest_even (shr_m mrs') (loc_of_shr_record mrs')) e' loc_Exact
                (round_nearest_even_nonneg _ _ H1)) as H2.
  destruct (shr_fexp prec emax _ e' loc_Exact) as [mrs'' e'']. cbn [fst] in H2.
  destruct (shr_m mrs'') as [|m|m]; [reflexivity| |lia].
  destruct (e'' <=? emax - prec)%Z; reflexivity.
Qed.

Lemma binary_round_not_nan (prec emax : Z) (sx : bool) (mx : positive) (ex : Z) :
  is_nan (binary_round prec emax sx mx ex) = false.
Proof.
  unfold binary_round.
  destruct (shl_align mx ex _) as [mz ez].
  apply binary_round_aux_not_nan. lia.
Qed.

Lemma SFdiv_finite_not_nan (prec emax : Z) (sx sy : bool) (mx my : positive) (ex ey : Z) :
  is_nan (SFdiv prec emax (S754_finite sx mx ex) (S754_finite sy my ey)) = false.
Proof.
  cbn [SFdiv]. unfold SFdiv_core_binary.
  set (m' := match (ex - ey - _)%Z with
             | Z0 => Zpos mx
             | Zpos _ => Z.shiftl (Zpos mx) _
             | Zneg _ => 0%Z
             end).
  assert (Hm : (0 <= m')%Z).
  { subst m'. destruct (ex - ey - _)%Z; [lia| |lia].
    apply Z.shiftl_nonneg. lia. }
  assert (Hq : (0 <= fst (Z.div_eucl m' (Zpos my)))%Z).
  { change (fst (Z.div_eucl m' (Zpos my))) with (m' / Zpos my)%Z.
    apply Z.div_pos; lia. }
  destruct (Z.div_eucl m' (Zpos my)) as [q r]. cbn [fst] in Hq.
  apply binary_round_aux_not_nan, Hq.
Qed.

Lemma of_decimal_not_nan (neg : bool) (m e10 : Z) :
  is_nan (PyNum.of_decimal neg m e10) = false.
Proof.
  unfold PyNum.of_decimal. destruct m as [|p|p]; try reflexivity.
  destruct (0 <=? e10)%Z.
  - apply binary_round_not_nan.
  - apply SFdiv_finite_not_nan.
Qed.

Lemma float_eq_refl (x : PyNum.float) :
  is_nan x = false -> PyNum.float_eq x x = true.
Proof.
  unfold PyNum.float_eq, SFeqb, SFcompare.
  destruct x as [s|s| |s m e]; try discriminate; intros _.
  - reflexivity.
  - destruct s; reflexivity.
  - destruct s; rewrite Z.compare_refl, Pos.compare_cont_refl; reflexivity.
Qed.

End FloatFacts.

Section DecimalPoint.

Lemma contains_dot_cons (c : ascii) (s : string) :
  contains "." (String c s) = Ascii.eqb "." c || contains "." s.
Proof.
  rewrite contains_cons, startswith_cons, startswith_empty, andb_true_r.
  reflexivity.
Qed.

Lemma contains_dot_lstrip_by (f : ascii -> bool) (s : string) :
  f "."%char = false -> contains "." (lstrip_by f s) = contains "." s.
Proof.
  intros Hf. induction s as [|c s IH]; [reflexivity|].
  cbn [lstrip_by]. destruct (f c) eqn:Fc; [|reflexivity].
  rewrite IH, contains_dot_cons.
  destruct (Ascii.eqb_spec "." c) as [<-|_]; [congruence|reflexivity].
Qed.

Lemma contains_dot_rstrip_by (f : ascii -> bool) (s : string) :
  f "."%char = false -> contains "." (rstrip_by f s) = contains "." s.
Proof.
  intros Hf. induction s as [|c s IH]; [reflexivity|].
  rewrite rstrip_by_cons, contains_dot_cons, <- IH.
  destruct (rstrip_by f s) as [|d r].
  - destruct (f c) eqn:Fc.
    + destruct (Ascii.eqb_spec "." c) as [<-|_]; [congruence|reflexivity].
    + rewrite contains_dot_cons. reflexivity.
  - rewrite contains_dot_cons. reflexivity.
Qed.

Lemma contains_dot_strip_numeral (s : string) :
  contains "." (PyNum.strip_numeral s) = contains "." s.
Proof.
  unfold PyNum.strip_numeral, strip_by.
  rewrite contains_dot_rstrip_by, contains_dot_lstrip_by; reflexivity.
Qed.

Lemma contains_dot_sign (s : string) :
  contains "." (snd (PyNum.sign s)) = contains "." s.
Proof.
  destruct s as [|c s]; [reflexivity|]. unfold PyNum.sign.
  rewrite contains_dot_cons.
  destruct (Ascii.eqb_spec c "-") as [->|_]; [reflexivity|].
  destruct (Ascii.eqb_spec c "+") as [->|_]; [reflexivity|].
  cbn [snd]. rewrite contains_dot_cons. reflexivity.
Qed.

Lemma lower_char_dot (c : ascii) :
  Ascii.eqb "." (lower_char c) = Ascii.eqb "." c.
Proof. destruct c as [[] [] [] [] [] [] [] []]; vm_compute; reflexivity. Qed.

Lemma contains_dot_lower (s : string) : contains "." (lower s) = contains "." s.
Proof.
  induction s as [|c s IH]; [reflexivity|].
  cbn [lower]. rewrite !contains_dot_cons, IH, lower_char_dot. reflexivity.
Qed.

(** A text with a decimal point in it is not read as a NaN. *)
Lemma to_float_point_not_nan (s : string) (x : PyNum.float) :
  contains "." s = true -> PyNum.to_float s = Some x -> is_nan x = false.
Proof.
  intros Hdot. unfold PyNum.to_float.
  pose proof (contains_dot_sign (PyNum.strip_numeral s)) as Hs.
  rewrite contains_dot_strip_numeral, Hdot in Hs.
  destruct (PyNum.sign (PyNum.strip_numeral s)) as [neg r]. cbn [snd] in Hs.
  destruct (String.eqb (lower r) "inf" || String.eqb (lower r) "infinity");
    [intros [= <-]; reflexivity|].
  destruct (String.eqb_spec (lower r) "nan") as [E|_].
  - rewrite <- contains_dot_lower, E in Hs. vm_compute in Hs. discriminate Hs.
  - destruct (PyNum.number r) as [[[m k] r1]|]; [|discriminate].
    destruct (PyNum.exponent r1) as [e|]; [|discriminate].
    intros [= <-]. apply of_decimal_not_nan.
Qed.

Lemma _compare_values_refl (value : string) : _compare_values value value = true.
Proof.
  unfold _compare_values.
  destruct (is_keyword (lower value)); [apply String.eqb_refl|].
  unfold numeric_compare. rewrite orb_diag.
  destruct (contains "." value) eqn:Hdot.
  - destruct (PyNum.to_float value) as [x|] eqn:E; [|apply String.eqb_refl].
    apply float_eq_refl. exact (to_float_point_not_nan value x Hdot E).
  - destruct (PyNum.int value); [apply Z.eqb_refl|apply String.eqb_refl].
Qed.

End DecimalPoint.

(** X10.  Every value matches itself: when the actual value is the
    expected text, the comparator answers true, whichever of its three
    rules applies. *)
Theorem X10_value_matches_itself (value : string) :
  _compare_values value value = true.
Proof. apply _compare_values_refl. Qed.

(** ** More on the check pass *)

Section Pass.

Lemma judge_status (check : ConfigCheck) (btool_output : string) :
  In (status (judge check btool_output)) assigned_statuses.
Proof.
  unfold judge, assigned_statuses.
  destruct (truthy btool_output); [|cbn; tauto].
  destruct (parse_btool_output _ _ _) as [a|]; [|cbn; tauto].
  cbn [set_actual_value expected_value].
  destruct (_compare_values a (expected_value check)); cbn; tauto.
Qed.

Lemma judge_error (check : ConfigCheck) (btool_output : string) :
  status (judge check btool_output) = "ERROR" <-> btool_output = "".
Proof.
  unfold judge. destruct btool_output as [|c s].
  - rewrite truthy_empty. cbn. tauto.
  - rewrite truthy_nonempty by discriminate.
    destruct (parse_btool_output _ _ _) as [a|]; [|cbn; split; discriminate].
    cbn [set_actual_value expected_value].
    destruct (_compare_values a (expected_value check)); cbn; split; discriminate.
Qed.

Lemma check_one_judged (w : World) (self : Checker) (c c' : ConfigCheck) :
  check_one w self c = Ok c' -> judged c c'.
Proof.
  unfold check_one, judged.
  destruct (run_btool_command w self (config_base c) (stanza c)) as [out|e];
    [|discriminate].
  intros [= <-]. eauto.
Qed.

Lemma check_from_completed (env : nat -> World) (self : Checker)
  (checks : list ConfigCheck) :
  forall i res,
    check_from env self i checks = (res, None) -> Forall2 judged checks res.
Proof.
  induction checks as [|c checks IH]; intros i res; cbn [check_from].
  - intros [= <-]. constructor.
  - destruct (check_one (env i) self c) as [c'|e] eqn:E; [|discriminate].
    destruct (check_from env self (S i) checks) as [rest' e'] eqn:E'.
    intros [= <- ->]. constructor; [exact (check_one_judged _ _ _ _ E)|].
    exact (IH _ _ E').
Qed.

(** A pass that stops at an exception has judged the checks before the
    one whose backend call raised and has left that one and the later
    ones as they were. *)
Lemma check_from_raised (env : nat -> World) (self : Checker)
  (checks : list ConfigCheck) :
  forall i res e,
    check_from env self i checks = (res, Some e) ->
    exists done done' c rest,
      checks = (done ++ c :: rest)%list
      /\ res = (done' ++ c :: rest)%list
      /\ Forall2 judged done done'
      /\ check_one (env (i + length done)) self c = Raise e.
Proof.
  induction checks as [|c checks IH]; intros i res e; cbn [check_from];
    [discriminate|].
  destruct (check_one (env i) self c) as [c'|e0] eqn:E.
  - destruct (check_from env self (S i) checks) as [rest' e'] eqn:E'.
    intros [= <- ->].
    destruct (IH _ _ _ E') as (done & done' & c0 & rest & -> & -> & Hj & Hr).
    exists (c :: done), (c' :: done'), c0, rest.
    split; [reflexivity|]. split; [reflexivity|].
    split; [constructor; [exact (check_one_judged _ _ _ _ E)|exact Hj]|].
    cbn [length]. replace (i + S (length done)) with (S i + length done) by lia.
    exact Hr.
  - intros [= <- <-]. exists [], [], c, checks.
    split; [reflexivity|]. split; [reflexivity|]. split; [constructor|].
    cbn [length]. rewrite Nat.add_0_r. exact E.
Qed.

Lemma run_btool_command_diag (w : World) (self : Checker) (config_file stanza : string) :
  diag_mode self = true ->
  run_btool_command w self config_file stanza
  = if diag_raises w self config_file then Raise Uncaught
    else Ok (_read_config_from_diag w self config_file).
Proof. intros H. unfold run_btool_command. rewrite H. reflexivity. Qed.

Lemma no_warning_no_raise (w : World) (self : Checker) (config_file : string) :
  (forall p, warning_raises w p = false) -> diag_raises w self config_file = false.
Proof.
  intros H. unfold diag_raises.
  induction (diag_config_paths w self config_file) as [|p paths IH]; [reflexivity|].
  cbn [existsb]. rewrite H. exact IH.
Qed.

Lemma check_from_diag (env : nat -> World) (self : Checker)
  (checks : list ConfigCheck) :
  diag_mode self = true ->
  (forall i p, warning_raises (env i) p = false) ->
  forall i, snd (check_from env self i checks) = None.
Proof.
  intros Hd Hw. induction checks as [|c checks IH]; intros i; cbn [check_from];
    [reflexivity|].
  unfold check_one. rewrite run_btool_command_diag by exact Hd.
  rewrite (no_warning_no_raise _ _ _ (Hw i)).
  specialize (IH (S i)).
  destruct (check_from env self (S i) checks) as [rest' e']. exact IH.
Qed.

Lemma join_first_nonempty (sep : string) (c : ascii) (s : string)
  (rest : list string) :
  join sep (String c s :: rest) <> "".
Proof. destruct rest; discriminate. Qed.

Lemma diag_output_empty (w : World) (paths : list string) :
  join nl (flat_map (diag_entry w) paths) = ""
  <-> flat_map (diag_entry w) paths = [].
Proof.
  split; [|intros ->; reflexivity].
  induction paths as [|p paths IH]; [reflexivity|].
  cbn [flat_map]. unfold diag_entry at 1 3.
  destruct (readable w p); [|exact IH].
  destruct (read_text w p) as [content|]; [|exact IH].
  intros H. exfalso. revert H. apply join_first_nonempty.
Qed.

End Pass.

(** X11.  When a check pass ends without an exception, every check has
    been judged against a backend answer, so every status is one of
    [OK], [MISMATCH], [MISSING] and [ERROR]: no check is left as
    [UNKNOWN]. *)
Theorem X11_completed_pass_assigns_every_status
  (env : nat -> World) (self : Checker) (config_checks res : list ConfigCheck) :
  check_configurations env self config_checks = (res, None) ->
  Forall2 judged config_checks res
  /\ Forall (fun c => In (status c) assigned_statuses) res.
Proof.
  intros H. apply check_from_completed in H. split; [exact H|].
  induction H as [|c c' cs res' [out ->] _ IH]; constructor;
    [apply judge_status|exact IH].
Qed.

Lemma X11_completed_pass_witness :
  check_configurations archive_env archive_checker [server_check; limits_check]
  = ([mkConfigCheck "server.conf" "httpServer" "busyKeepAliveIdleTimeout" "120"
        (Some "60") "MISMATCH" (Some SEARCH_HEAD);
      set_status limits_check "ERROR"], None)
  /\ Forall (fun c => In (status c) assigned_statuses)
       [mkConfigCheck "server.conf" "httpServer" "busyKeepAliveIdleTimeout" "120"
          (Some "60") "MISMATCH" (Some SEARCH_HEAD);
        set_status limits_check "ERROR"].
Proof.
  assert (H : check_configurations archive_env archive_checker
                [server_check; limits_check]
              = ([mkConfigCheck "server.conf" "httpServer" "busyKeepAliveIdleTimeout"
                    "120" (Some "60") "MISMATCH" (Some SEARCH_HEAD);
                  set_status limits_check "ERROR"], None))
    by (vm_compute; reflexivity).
  split; [exact H|].
  exact (proj2 (X11_completed_pass_assigns_every_status _ _ _ _ H)).
Defined.

(** X12.  When the backend call of a check raises an exception that
    [run_btool_command] does not catch, the pass stops there: the checks
    before it are judged, that check and all later ones stay exactly as
    they were. *)
Theorem X12_exception_stops_the_pass
  (env : nat -> World) (self : Checker) (config_checks res : list ConfigCheck)
  (e : exception) :
  check_configurations env self config_checks = (res, Some e) ->
  exists done done' c rest,
    config_checks = (done ++ c :: rest)%list
    /\ res = (done' ++ c :: rest)%list
    /\ Forall2 judged done done'
    /\ check_one (env (length done)) self c = Raise e.
Proof.
  intros H. exact (check_from_raised env self config_checks 0 res e H).
Qed.

Lemma X12_exception_witness :
  check_configurations breaking_env live_checker
    [server_check; limits_check; timeout_60_check]
  = ([set_status server_check "ERROR"; limits_check; timeout_60_check], Some Uncaught)
  /\ exists done done' c rest,
       [server_check; limits_check; timeout_60_check] = (done ++ c :: rest)%list
       /\ [set_status server_check "ERROR"; limits_check; timeout_60_check]
          = (done' ++ c :: rest)%list
       /\ Forall2 judged done done'
       /\ check_one (breaking_env (length done)) live_checker c = Raise Uncaught.
Proof.
  assert (H : check_configurations breaking_env live_checker
                [server_check; limits_check; timeout_60_check]
              = ([set_status server_check "ERROR"; limits_check; timeout_60_check],
                 Some Uncaught)) by (vm_compute; reflexivity).
  split; [exact H|]. exact (X12_exception_stops_the_pass _ _ _ _ _ H).
Defined.

(** X13.  Against an extracted archive a check pass runs to the end
    without an exception as long as no warning about a file that could
    not be read fails to print; in particular when every readable file
    that is found can be read.  The one way out of the archive resolver
    is such a warning. *)
Theorem X13_archive_pass_never_raises
  (env : nat -> World) (self : Checker) (config_checks : list ConfigCheck) :
  diag_mode self = true ->
  (forall i p, warning_raises (env i) p = false) ->
  snd (check_configurations env self config_checks) = None.
Proof. intros H Hw. apply check_from_diag; assumption. Qed.

Lemma X13_archive_pass_witness :
  diag_mode archive_checker = true
  /\ (forall i p, warning_raises (archive_env i) p = false)
  /\ snd (check_configurations archive_env archive_checker
            [server_check; limits_check]) = None.
Proof.
  assert (Hw : forall i p, warning_raises (archive_env i) p = false)
    by (intros i p; reflexivity).
  split; [reflexivity|]. split; [exact Hw|].
  exact (X13_archive_pass_never_raises archive_env archive_checker
           [server_check; limits_check] eq_refl Hw).
Defined.

(** When the file cannot be read and the warning cannot be printed, the
    exception leaves the pass and the check stays as it was. *)
Example archive_pass_raises_with_the_warning :
  check_configurations (fun _ => unprintable_archive) archive_checker
    [server_check; limits_check]
  = ([server_check; limits_check], Some Uncaught).
Proof. vm_compute. reflexivity. Qed.

(** X14.  Against an extracted archive the status of a check is [ERROR]
    exactly when no file named after the key could be read: one readable
    file, even an empty one, makes the answer non-empty because of its
    source path line, and the status is then [MISSING], [OK] or
    [MISMATCH]. *)
Theorem X14_archive_error_means_no_readable_file
  (w : World) (self : Checker) (check check' : ConfigCheck) :
  diag_mode self = true ->
  check_one w self check = Ok check' ->
  (status check' = "ERROR"
   <-> flat_map (diag_entry w) (diag_config_paths w self (config_base check)) = []).
Proof.
  intros Hd. unfold check_one.
  rewrite run_btool_command_diag by exact Hd.
  destruct (diag_raises w self (config_base check)); [discriminate|].
  intros [= <-].
  rewrite judge_error. unfold _read_config_from_diag. apply diag_output_empty.
Qed.

Lemma X14_archive_error_witness :
  diag_mode archive_checker = true
  /\ check_one sample_archive archive_checker limits_check
     = Ok (set_status limits_check "ERROR")
  /\ flat_map (diag_entry sample_archive)
       (diag_config_paths sample_archive archive_checker (config_base limits_check))
     = [].
Proof.
  split; [reflexivity|]. split; [reflexivity|].
  exact (proj1 (X14_archive_error_means_no_readable_file
                  sample_archive archive_checker limits_check
                  (set_status limits_check "ERROR") eq_refl eq_refl) eq_refl).
Defined.

(** X15.  In live mode a tool run that succeeds and prints nothing but
    whitespace gives the status [ERROR], not [MISSING]. *)
Theorem X15_silent_tool_is_an_error
  (w : World) (self : Checker) (check : ConfigCheck) (stdout stderr : string) :
  diag_mode self = false ->
  subprocess_run w (btool_cmd self (config_base check) (stanza check))
  = Completed 0 stdout stderr ->
  strip stdout = "" ->
  check_one w self check = Ok (set_status check "ERROR").
Proof.
  intros Hd Hrun Hs. unfold check_one, run_btool_command.
  rewrite Hd, Hrun. cbn [Z.eqb]. rewrite Hs. reflexivity.
Qed.

Lemma X15_silent_tool_witness :
  diag_mode live_checker = false
  /\ strip "  " = ""
  /\ check_one silent_world live_checker server_check
     = Ok (set_status server_check "ERROR").
Proof.
  split; [reflexivity|]. split; [reflexivity|].
  exact (X15_silent_tool_is_an_error silent_world live_checker server_check
           "  " "" eq_refl eq_refl eq_refl).
Defined.

(** X16.  When extraction from a non-empty backend answer gives the
    expected value itself, the status is [OK] and the value is
    recorded. *)
Theorem X16_same_value_is_ok (check : ConfigCheck) (btool_output : string) :
  btool_output <> "" ->
  parse_btool_output btool_output (stanza check) (setting check)
  = Some (expected_value check) ->
  status (judge check btool_output) = "OK"
  /\ actual_value (judge check btool_output) = Some (expected_value check).
Proof.
  intros Hne Hp. unfold judge. rewrite (truthy_nonempty _ Hne), Hp.
  cbn [set_actual_value expected_value].
  rewrite _compare_values_refl. split; reflexivity.
Qed.

Lemma X16_same_value_witness :
  join nl ["[httpServer]"; "busyKeepAliveIdleTimeout = 120"] <> ""
  /\ status (judge server_check
               (join nl ["[httpServer]"; "busyKeepAliveIdleTimeout = 120"])) = "OK".
Proof.
  assert (H : join nl ["[httpServer]"; "busyKeepAliveIdleTimeout = 120"] <> "")
    by discriminate.
  split; [exact H|].
  exact (proj1 (X16_same_value_is_ok server_check _ H eq_refl)).
Defined.

(** X17.  For a check that has just been judged, the table prints the
    expected and the actual value exactly when the status is
    [MISMATCH]: a [MISSING] check has no actual value, so nothing is
    printed under it. *)
Theorem X17_table_values_only_for_mismatch
  (check : ConfigCheck) (btool_output : string) :
  shows_values (judge check btool_output) = true
  <-> status (judge check btool_output) = "MISMATCH".
Proof.
  unfold judge, shows_values.
  destruct (truthy btool_output); [|cbn; split; discriminate].
  destruct (parse_btool_output _ _ _) as [a|]; [|cbn; split; discriminate].
  cbn [set_actual_value expected_value].
  destruct (_compare_values a (expected_value check)); cbn; split;
    solve [discriminate | reflexivity].
Qed.

(** ** More on the summary *)

Section SummaryCounts.

Lemma summary_init_count (k : string) : count_of summary_init k = 0.
Proof.
  unfold count_of, summary_init, summary_keys. cbn [fold_right].
  repeat (rewrite lookup_insert; destruct (decide _); [reflexivity|]).
  rewrite lookup_empty. reflexivity.
Qed.

Lemma summary_step_count (m : gmap string nat) (c : ConfigCheck) (k : string) :
  is_Some (lookup k m) ->
  count_of (summary_step m c) k
  = count_of m k + (if String.eqb (status c) k then 1 else 0).
Proof.
  intros [n Hn]. unfold summary_step, count_of.
  destruct (String.eqb_spec (status c) k) as [E|E].
  - rewrite E, Hn, lookup_insert_eq. cbn. lia.
  - destruct (lookup (status c) m) as [n'|]; [|lia].
    rewrite lookup_insert_ne by exact E. lia.
Qed.

Lemma summary_fold_count (checks : list ConfigCheck) (k : string) :
  forall m,
    is_Some (lookup k m) ->
    count_of (fold_left summary_step checks m) k = count_of m k + count_status k checks.
Proof.
  unfold count_status.
  induction checks as [|c checks IH]; intros m Hk; cbn [fold_left List.filter length].
  - lia.
  - rewrite IH.
    + rewrite summary_step_count by exact Hk.
      destruct (String.eqb (status c) k); cbn [length]; lia.
    + apply elem_of_dom. rewrite summary_step_dom. apply elem_of_dom. exact Hk.
Qed.

Lemma summary_init_has (k : string) :
  In k summary_keys -> is_Some (lookup k summary_init).
Proof.
  intros H. apply elem_of_dom. rewrite summary_init_dom.
  apply elem_of_list_to_set, list_elem_of_In, H.
Qed.

Lemma _get_summary_count (checks : list ConfigCheck) (k : string) :
  In k summary_keys -> count_of (_get_summary checks) k = count_status k checks.
Proof.
  intros Hk. unfold _get_summary.
  rewrite summary_fold_count by (apply summary_init_has, Hk).
  rewrite summary_init_count. reflexivity.
Qed.

Lemma count_status_zero (k : string) (checks : list ConfigCheck) :
  Forall (fun c => status c <> k) checks -> count_status k checks = 0.
Proof.
  unfold count_status. induction 1 as [|c checks Hc _ IH]; [reflexivity|].
  cbn [List.filter]. apply String.eqb_neq in Hc. rewrite Hc. exact IH.
Qed.

End SummaryCounts.

(** X18.  Each of the five counts of the summary is the number of
    results with that status, whatever other statuses occur; results
    with another status are counted nowhere. *)
Theorem X18_summary_counts_each_status
  (config_checks : list ConfigCheck) (k : string) :
  In k summary_keys ->
  lookup k (_get_summary config_checks) = Some (count_status k config_checks).
Proof.
  intros Hk.
  pose proof (_get_summary_count config_checks k Hk) as Hc.
  assert (Hs : is_Some (lookup k (_get_summary config_checks))).
  { apply elem_of_dom. unfold _get_summary. rewrite summary_dom.
    apply elem_of_dom, summary_init_has, Hk. }
  destruct Hs as [n Hn]. unfold count_of in Hc. rewrite Hn in Hc |- *.
  cbn in Hc. congruence.
Qed.

Lemma X18_summary_counts_witness :
  In "ERROR" summary_keys
  /\ lookup "ERROR"
       (_get_summary [set_status server_check "ERROR"; set_status limits_check "odd";
                      set_status limits_check "ERROR"; server_check])
     = Some 2.
Proof.
  assert (H : In "ERROR" summary_keys) by (cbn; tauto).
  split; [exact H|].
  exact (X18_summary_counts_each_status
           [set_status server_check "ERROR"; set_status limits_check "odd";
            set_status limits_check "ERROR"; server_check] "ERROR" H).
Defined.

(** X19.  After a check pass that ends without an exception, the
    summary counts no result as [UNKNOWN], and the counts of [OK],
    [MISMATCH], [MISSING] and [ERROR] add up to the number of
    checks. *)
Theorem X19_summary_after_completed_pass
  (env : nat -> World) (self : Checker) (config_checks res : list ConfigCheck) :
  check_configurations env self config_checks = (res, None) ->
  count_of (_get_summary res) "UNKNOWN" = 0
  /\ count_of (_get_summary res) "OK" + count_of (_get_summary res) "MISMATCH"
     + count_of (_get_summary res) "MISSING" + count_of (_get_summary res) "ERROR"
     = length config_checks.
Proof.
  intros H. apply check_from_completed in H.
  assert (Hst : Forall (fun c => In (status c) assigned_statuses) res).
  { clear -H. induction H as [|c c' cs res' [out ->] _ IH]; constructor;
      [apply judge_status|exact IH]. }
  assert (Hu : count_of (_get_summary res) "UNKNOWN" = 0).
  { rewrite _get_summary_count by (cbn; tauto).
    apply count_status_zero.
    eapply Forall_impl; [exact Hst|].
    intros c Hc E. cbv beta in Hc. rewrite E in Hc. cbn in Hc.
    repeat (destruct Hc as [Hc | Hc]; [discriminate Hc|]). exact Hc. }
  split; [exact Hu|].
  assert (Htot : summary_total (_get_summary res) = length res).
  { unfold _get_summary.
    rewrite summary_total_fold; [reflexivity| |apply summary_init_dom].
    eapply Forall_impl; [exact Hst|].
    intros c Hc. cbn in Hc |- *. tauto. }
  unfold summary_total in Htot. rewrite Hu in Htot.
  rewrite (Forall2_length _ _ _ H). lia.
Qed.

Lemma X19_summary_after_pass_witness :
  check_configurations archive_env archive_checker [server_check; limits_check]
  = ([mkConfigCheck "server.conf" "httpServer" "busyKeepAliveIdleTimeout" "120"
        (Some "60") "MISMATCH" (Some SEARCH_HEAD);
      set_status limits_check "ERROR"], None)
  /\ count_of
       (_get_summary
          [mkConfigCheck "server.conf" "httpServer" "busyKeepAliveIdleTimeout" "120"
             (Some "60") "MISMATCH" (Some SEARCH_HEAD);
           set_status limits_check "ERROR"]) "UNKNOWN" = 0.
Proof.
  assert (H : check_configurations archive_env archive_checker
                [server_check; limits_check]
              = ([mkConfigCheck "server.conf" "httpServer" "busyKeepAliveIdleTimeout"
                    "120" (Some "60") "MISMATCH" (Some SEARCH_HEAD);
                  set_status limits_check "ERROR"], None))
    by (vm_compute; reflexivity).
  split; [exact H|].
  exact (proj1 (X19_summary_after_completed_pass _ _ _ _ H)).
Defined.

(** ** Reporting *)

Section Reporting.

Lemma group_of_add (by_role : list (string * list ConfigCheck)) (name n : string)
  (check : ConfigCheck) :
  group_of n (group_add by_role name check) =
  if String.eqb name n
  then Some (default [] (group_of n by_role) ++ [check])%list
  else group_of n by_role.
Proof.
  induction by_role as [|[n0 cs] rest IH]; cbn [group_add group_of].
  - rewrite (String.eqb_sym name n). destruct (String.eqb n name); reflexivity.
  - destruct (String.eqb_spec n0 name) as [->|Hne]; cbn [group_of].
    + destruct (String.eqb_spec name n) as [E|E]; reflexivity.
    + destruct (String.eqb_spec n0 n) as [->|Hn].
      * destruct (String.eqb_spec name n) as [->|_]; [contradiction|reflexivity].
      * exact IH.
Qed.

Lemma group_add_keys (by_role : list (string * list ConfigCheck)) (name x : string)
  (check : ConfigCheck) :
  In x (map fst (group_add by_role name check)) -> x = name \/ In x (map fst by_role).
Proof.
  induction by_role as [|[n cs] rest IH]; cbn [group_add map fst In].
  - intros [<- | []]. left. reflexivity.
  - destruct (String.eqb n name); cbn [map fst In]; [tauto|].
    intros [<- | H]; [tauto|]. destruct (IH H); tauto.
Qed.

Lemma group_add_NoDup (by_role : list (string * list ConfigCheck)) (name : string)
  (check : ConfigCheck) :
  List.NoDup (map fst by_role) ->
  List.NoDup (map fst (group_add by_role name check)).
Proof.
  induction by_role as [|[n cs] rest IH]; cbn [group_add map fst]; intros Hnd.
  - constructor; [intros []|constructor].
  - apply List.NoDup_cons_iff in Hnd as [Hnotin Hnd].
    destruct (String.eqb_spec n name) as [->|Hne]; cbn [map fst].
    + constructor; assumption.
    + constructor; [|exact (IH Hnd)].
      intros Hin. apply group_add_keys in Hin as [-> | Hin]; contradiction.
Qed.

Lemma checks_named_app (name : string) (l1 l2 : list ConfigCheck) :
  checks_named name (l1 ++ l2) = (checks_named name l1 ++ checks_named name l2)%list.
Proof. unfold checks_named. apply List.filter_app. Qed.

Lemma checks_named_absent (name : string) (checks : list ConfigCheck) :
  existsb (String.eqb name) (map role_name checks) = false ->
  checks_named name checks = [].
Proof.
  unfold checks_named. induction checks as [|c checks IH]; [reflexivity|].
  cbn [map existsb List.filter]. intros [H1 H2]%orb_false_iff.
  rewrite (String.eqb_sym (role_name c) name), H1. exact (IH H2).
Qed.

Lemma group_by_role_snoc (checks : list ConfigCheck) (c : ConfigCheck) :
  group_by_role (checks ++ [c]) = group_add (group_by_role checks) (role_name c) c.
Proof. unfold group_by_role. rewrite fold_left_app. reflexivity. Qed.

Lemma group_of_group_by_role (checks : list ConfigCheck) (name : string) :
  group_of name (group_by_role checks) =
  if existsb (String.eqb name) (map role_name checks)
  then Some (checks_named name checks) else None.
Proof.
  induction checks as [|c checks IH] using rev_ind; [reflexivity|].
  rewrite group_by_role_snoc, group_of_add, IH, checks_named_app.
  rewrite map_app, existsb_app. cbn [map existsb]. rewrite orb_false_r.
  assert (Hone : checks_named name [c]
                 = if String.eqb (role_name c) name then [c] else [])
    by reflexivity.
  rewrite Hone, (String.eqb_sym name (role_name c)).
  destruct (String.eqb (role_name c) name).
  - rewrite orb_true_r.
    destruct (existsb (String.eqb name) (map role_name checks)) eqn:E;
      [reflexivity|].
    rewrite (checks_named_absent _ _ E). reflexivity.
  - rewrite orb_false_r, app_nil_r. reflexivity.
Qed.

Lemma group_by_role_NoDup (checks : list ConfigCheck) :
  List.NoDup (map fst (group_by_role checks)).
Proof.
  induction checks as [|c checks IH] using rev_ind; [constructor|].
  rewrite group_by_role_snoc. apply group_add_NoDup, IH.
Qed.

Lemma role_value_inj (r1 r2 : SplunkRole) : role_value r1 = role_value r2 -> r1 = r2.
Proof. destruct r1, r2; intros H; solve [reflexivity | discriminate H]. Qed.

Lemma role_value_nonempty (r : SplunkRole) : role_value r <> "".
Proof. destruct r; discriminate. Qed.

Lemma role_cell_inj (o1 o2 : option SplunkRole) :
  match o1 with Some r => role_value r | None => "" end
  = match o2 with Some r => role_value r | None => "" end ->
  o1 = o2.
Proof.
  destruct o1 as [r1|], o2 as [r2|]; intros H.
  - f_equal. apply role_value_inj, H.
  - exfalso. exact (role_value_nonempty r1 H).
  - exfalso. symmetry in H. exact (role_value_nonempty r2 H).
  - reflexivity.
Qed.

End Reporting.

(** X20.  In the table the checks are grouped by role name: the group of
    a name is the list of all checks with that role name, in their
    original order (checks without a role under [unknown]); a name that
    no check has is no key; and no name is a key twice. *)
Theorem X20_table_groups_by_role (config_checks : list ConfigCheck) (name : string) :
  group_of name (group_by_role config_checks)
  = (if existsb (String.eqb name) (map role_name config_checks)
     then Some (checks_named name config_checks) else None)
  /\ List.NoDup (map fst (group_by_role config_checks)).
Proof.
  split; [apply group_of_group_by_role|apply group_by_role_NoDup].
Qed.

(** X21.  The JSON record of a check determines the check: two checks
    with the same record are the same in every field. *)
Theorem X21_json_record_is_lossless (c1 c2 : ConfigCheck) :
  json_record c1 = json_record c2 -> c1 = c2.
Proof.
  destruct c1 as [f1 s1 k1 e1 a1 st1 r1], c2 as [f2 s2 k2 e2 a2 st2 r2].
  unfold json_record. cbn [role config_file stanza setting expected_value
                            actual_value status].
  intros H. injection H as Hr -> -> -> -> -> ->.
  f_equal. destruct r1 as [r1|], r2 as [r2|]; cbn in Hr;
    try discriminate Hr; [|reflexivity].
  injection Hr as Hr. f_equal. apply role_value_inj, Hr.
Qed.

Lemma X21_json_record_witness :
  json_record server_check
  = json_record (new_check "server.conf" "httpServer" "busyKeepAliveIdleTimeout"
                   "120" SEARCH_HEAD)
  /\ server_check
     = new_check "server.conf" "httpServer" "busyKeepAliveIdleTimeout" "120"
         SEARCH_HEAD.
Proof.
  split; [reflexivity|].
  exact (X21_json_record_is_lossless server_check _ eq_refl).
Defined.

(** X22.  Two checks have the same CSV row exactly when they agree in
    role, config file, stanza, setting, expected value and status and
    their actual values are the same text, where an absent actual value
    counts as the empty text: the row does not tell an absent value
    from an empty one. *)
Theorem X22_csv_row_up_to_empty_actual (c1 c2 : ConfigCheck) :
  csv_row c1 = csv_row c2
  <-> role c1 = role c2
      /\ config_file c1 = config_file c2
      /\ stanza c1 = stanza c2
      /\ setting c1 = setting c2
      /\ expected_value c1 = expected_value c2
      /\ or_empty (actual_value c1) = or_empty (actual_value c2)
      /\ status c1 = status c2.
Proof.
  unfold csv_row. split.
  - intros H. injection H as Hr Hf Hs Hk He Ha Hst.
    apply role_cell_inj in Hr. tauto.
  - intros (-> & -> & -> & -> & -> & -> & ->). reflexivity.
Qed.

(** ** The command line run *)

(** X23.  Whatever the document and the options, [main] never prints
    results and never runs a check: the parser gives it no checks, so it
    ends with the message that no checks were found, or with exit code 1
    when the checker cannot be started or the document is missing. *)
Theorem X23_main_never_reports
  (checker : result Checker) (document : option string)
  (role_arg : option SplunkRole) (dry_run : bool) (output_format : string)
  (env : nat -> World) :
  main checker document role_arg dry_run output_format env
  = match checker, document with
    | Ok _, Some _ => NoChecksFound
    | _, _ => ExitFailure
    end.
Proof.
  unfold main. destruct checker as [self|e]; [|reflexivity].
  destruct document as [content|]; [|reflexivity].
  unfold parse_config_file. rewrite parse_document_id.
  destruct role_arg; reflexivity.
Qed.

(** ** The backend key and the files read *)

Section KeyAndFiles.

Lemma scan_prefix_some (target_stanza target_setting : string) (l1 : list string) :
  forall (cs : option string) (l2 : list string) (v : string),
    btool_scan target_stanza target_setting cs l1 = Some v ->
    btool_scan target_stanza target_setting cs (l1 ++ l2) = Some v.
Proof.
  induction l1 as [|l l1 IH]; intros cs l2 v; [discriminate|].
  cbn [app]. rewrite !btool_scan_cons. cbv zeta.
  repeat match goal with
         | |- context [if ?b then _ else _] => destruct b
         | |- context [match ?o with Some _ => _ | None => _ end] => destruct o
         | |- context [let '(_, _) := ?p in _] => destruct p
         end; auto.
Qed.

Lemma check_one_archive_frame (w : World) (s1 s2 : Checker) (c : ConfigCheck) :
  diag_mode s1 = true -> diag_mode s2 = true ->
  diag_temp_dir s1 = diag_temp_dir s2 ->
  check_one w s1 c = check_one w s2 c.
Proof.
  intros H1 H2 Ht. unfold check_one.
  rewrite !run_btool_command_diag by assumption.
  unfold diag_raises, _read_config_from_diag, diag_config_paths. rewrite Ht.
  reflexivity.
Qed.

Lemma check_from_archive_frame (env : nat -> World) (s1 s2 : Checker)
  (checks : list ConfigCheck) :
  diag_mode s1 = true -> diag_mode s2 = true ->
  diag_temp_dir s1 = diag_temp_dir s2 ->
  forall i, check_from env s1 i checks = check_from env s2 i checks.
Proof.
  intros H1 H2 Ht.
  induction checks as [|c checks IH]; intros i; cbn [check_from]; [reflexivity|].
  rewrite (check_one_archive_frame (env i) s1 s2 c H1 H2 Ht), IH. reflexivity.
Qed.

End KeyAndFiles.

(** X24.  For an expectation whose config file is [name.conf] with no
    other [.conf] in the name, the live resolver asks the tool for
    [name], and the archive resolver reads the files called by the
    expectation's config file name. *)
Theorem X24_key_of_a_plain_name
  (w : World) (self : Checker) (check : ConfigCheck) (name : string) :
  config_file check = name ++ ".conf" ->
  contains ".conf" name = false ->
  btool_cmd self (config_base check) (stanza check)
  = ([btool_path self; "btool"; name; "list"]
       ++ (if truthy (stanza check) then [stanza check] else []))%list
  /\ diag_config_paths w self (config_base check)
     = flat_map (fun '(root, files) =>
         flat_map (fun file =>
           if String.eqb file (config_file check) then [path_join2 root file] else [])
           files) (os_walk w (diag_temp_dir self)).
Proof.
  intros Hf Hn.
  assert (Hk : config_base check = name).
  { unfold config_base. rewrite Hf. apply remove_all_suffix_only, Hn. }
  rewrite Hk. split; [reflexivity|].
  unfold diag_config_paths. rewrite Hf. reflexivity.
Qed.

Lemma X24_key_of_a_plain_name_witness :
  config_file server_check = "server" ++ ".conf"
  /\ contains ".conf" "server" = false
  /\ btool_cmd live_checker (config_base server_check) (stanza server_check)
     = ["/opt/splunk/bin/splunk"; "btool"; "server"; "list"; "httpServer"].
Proof.
  split; [reflexivity|]. split; [reflexivity|].
  exact (proj1 (X24_key_of_a_plain_name sample_archive live_checker server_check
                  "server" eq_refl eq_refl)).
Defined.

(** X25.  Against an extracted archive a check pass depends on the
    checker only through the extraction directory: the Splunk home found
    inside the archive and the tool path play no part. *)
Theorem X25_archive_pass_ignores_splunk_home
  (env : nat -> World) (s1 s2 : Checker) (config_checks : list ConfigCheck) :
  diag_mode s1 = true -> diag_mode s2 = true ->
  diag_temp_dir s1 = diag_temp_dir s2 ->
  check_configurations env s1 config_checks
  = check_configurations env s2 config_checks.
Proof.
  intros H1 H2 Ht. apply check_from_archive_frame; assumption.
Qed.

Lemma X25_archive_pass_witness :
  diag_mode archive_checker = true
  /\ diag_mode (mkChecker true "/tmp/splunk_diag_x" "/elsewhere" "/bin/false") = true
  /\ check_configurations archive_env archive_checker [server_check; limits_check]
     = check_configurations archive_env
         (mkChecker true "/tmp/splunk_diag_x" "/elsewhere" "/bin/false")
         [server_check; limits_check].
Proof.
  split; [reflexivity|]. split; [reflexivity|].
  exact (X25_archive_pass_ignores_splunk_home archive_env archive_checker
           (mkChecker true "/tmp/splunk_diag_x" "/elsewhere" "/bin/false")
           [server_check; limits_check] eq_refl eq_refl eq_refl).
Defined.

(** X26.  When several files of the archive set the same setting, the
    first file in walk order wins: if the first file found can be read
    and extraction from its text alone gives a value, extraction from
    what the archive resolver returns gives that value (source paths
    being single lines). *)
Theorem X26_first_archive_file_wins
  (w : World) (self : Checker) (config_file target_stanza target_setting : string)
  (first_path content v : string) (later : list string) :
  diag_config_paths w self config_file = first_path :: later ->
  Forall (fun p => one_line p = true) (first_path :: later) ->
  readable w first_path = true ->
  read_text w first_path = Some content ->
  parse_btool_output content target_stanza target_setting = Some v ->
  parse_btool_output (_read_config_from_diag w self config_file)
    target_stanza target_setting = Some v.
Proof.
  intros Hpaths Hone Hr Ht Hv.
  unfold parse_btool_output at 1. unfold _read_config_from_diag.
  rewrite scan_split_join, Hpaths.
  etransitivity;
    [exact (scan_without_source_lines target_stanza target_setting w true _
              Hone None [])|].
  cbn [app flat_map]. unfold content_lines at 1. rewrite Hr, Ht.
  rewrite <- !app_assoc. apply scan_prefix_some. exact Hv.
Qed.

Lemma X26_first_archive_file_witness :
  diag_config_paths two_file_archive archive_checker "server"
  = [ "/tmp/splunk_diag_x/etc/system/local/server.conf";
      "/tmp/splunk_diag_x/etc/system/default/server.conf" ]
  /\ parse_btool_output (_read_config_from_diag two_file_archive archive_checker "server")
       "httpServer" "busyKeepAliveIdleTimeout" = Some "60".
Proof.
  assert (H : diag_config_paths two_file_archive archive_checker "server"
              = [ "/tmp/splunk_diag_x/etc/system/local/server.conf";
                  "/tmp/splunk_diag_x/etc/system/default/server.conf" ])
    by reflexivity.
  split; [exact H|].
  apply (X26_first_archive_file_wins two_file_archive archive_checker "server"
           "httpServer" "busyKeepAliveIdleTimeout" _
           (join nl ["[httpServer]"; "busyKeepAliveIdleTimeout = 60"]) "60" _ H).
  - repeat constructor.
  - reflexivity.
  - reflexivity.
  - reflexivity.
Defined.

(** ** Starting a checker *)

(** X27.  A checker that the constructor starts in live mode points at a
    tool that exists and can be executed, at [bin/splunk] under its
    Splunk home, and the probe of the tool did not end with a nonzero
    exit code; a probe that times out does not stop the start. *)
Theorem X27_live_checker_has_a_tool
  (h : Host) (splunk_home_arg : option string) (self : Checker) :
  init h splunk_home_arg None = Some self ->
  diag_mode self = false
  /\ btool_path self = path_join (splunk_home self) ["bin"; "splunk"]
  /\ path_exists h (btool_path self) = true
  /\ access_x h (btool_path self) = true
  /\ forall returncode stdout stderr,
       run_probe h [btool_path self; "btool"; "server"; "list"; "--help"]
       = Completed returncode stdout stderr ->
       returncode = 0%Z.
Proof.
  unfold init.
  set (home := match splunk_home_arg with
               | Some p => if truthy p then Some p else find_splunk_home h
               | None => find_splunk_home h
               end).
  destruct home as [p|]; [|discriminate].
  unfold validate_splunk_installation.
  destruct (path_exists h (path_join p ["bin"; "splunk"])) eqn:Hex;
    cbn [negb]; [|discriminate].
  destruct (access_x h (path_join p ["bin"; "splunk"])) eqn:Hx;
    cbn [negb]; [|discriminate].
  destruct (run_probe h _) as [rc out err| | | |] eqn:Hp; try discriminate.
  - destruct (rc =? 0)%Z eqn:Hrc; [|discriminate].
    intros [= <-]. cbn [diag_mode btool_path splunk_home].
    repeat split; try assumption.
    intros rc' out' err' E. cbn [btool_path] in E.
    unfold path_join in Hp, E. cbn [fold_left] in Hp, E. rewrite Hp in E.
    injection E as <- _ _.
    apply Z.eqb_eq, Hrc.
  - intros [= <-]. cbn [diag_mode btool_path splunk_home].
    repeat split; try assumption.
    intros rc' out' err' E. cbn [btool_path] in E.
    unfold path_join in Hp, E. cbn [fold_left] in Hp, E. rewrite Hp in E.
    discriminate E.
  - intros [= <-]. cbn [diag_mode btool_path splunk_home].
    repeat split; try assumption.
    intros rc' out' err' E. cbn [btool_path] in E.
    unfold path_join in Hp, E. cbn [fold_left] in Hp, E. rewrite Hp in E.
    discriminate E.
  - intros [= <-]. cbn [diag_mode btool_path splunk_home].
    repeat split; try assumption.
    intros rc' out' err' E. cbn [btool_path] in E.
    unfold path_join in Hp, E. cbn [fold_left] in Hp, E. rewrite Hp in E.
    discriminate E.
Qed.

Lemma X27_live_checker_witness :
  init slow_host None None
  = Some (mkChecker false "" "/opt/splunk" "/opt/splunk/bin/splunk")
  /\ path_exists slow_host "/opt/splunk/bin/splunk" = true
  /\ access_x slow_host "/opt/splunk/bin/splunk" = true.
Proof.
  assert (H : init slow_host None None
              = Some (mkChecker false "" "/opt/splunk" "/opt/splunk/bin/splunk"))
    by reflexivity.
  split; [exact H|].
  pose proof (X27_live_checker_has_a_tool slow_host None _ H) as (_ & _ & H1 & H2 & _).
  split; [exact H1|exact H2].
Defined.

(** X28.  A checker that the constructor starts on an archive is in
    archive mode, the archive exists and was unpacked into its
    extraction directory, and its Splunk home is that directory or a
    directory of the unpacked tree that has [etc] among its
    subdirectories and in which [etc/system] exists. *)
Theorem X28_archive_checker_home
  (h : Host) (splunk_home_arg : option string) (archive : string) (self : Checker) :
  init h splunk_home_arg (Some archive) = Some self ->
  diag_mode self = true
  /\ path_exists h archive = true
  /\ extract_to h archive = Some (diag_temp_dir self)
  /\ (splunk_home self = diag_temp_dir self
      \/ exists dirs,
           In (splunk_home self, dirs) (walk_dirs h (diag_temp_dir self))
           /\ In "etc" dirs
           /\ path_exists h (path_join2 (path_join2 (splunk_home self) "etc") "system")
              = true).
Proof.
  unfold init.
  destruct (path_exists h archive) eqn:Hex; cbn [negb]; [|discriminate].
  destruct (extract_to h archive) as [temp|] eqn:Hext; [|discriminate].
  intros [= <-]. cbn [diag_mode diag_temp_dir splunk_home].
  split; [reflexivity|]. split; [reflexivity|]. split; [reflexivity|].
  unfold _find_splunk_home_in_diag.
  destruct (find _ (walk_dirs h temp)) as [[root dirs]|] eqn:E; [|left; reflexivity].
  right. apply find_some in E as [Hin Hc].
  apply andb_true_iff in Hc as [Hetc Hsys].
  exists dirs. split; [exact Hin|]. split; [|exact Hsys].
  apply existsb_exists in Hetc as (d & Hd & Heq).
  apply String.eqb_eq in Heq. subst d. exact Hd.
Qed.

Lemma X28_archive_checker_witness :
  init archive_host None (Some "/tmp/diag.tar.gz")
  = Some (mkChecker true "/tmp/splunk_diag_x" "/tmp/splunk_diag_x/diag-host" "")
  /\ diag_mode (mkChecker true "/tmp/splunk_diag_x" "/tmp/splunk_diag_x/diag-host" "")
     = true.
Proof.
  assert (H : init archive_host None (Some "/tmp/diag.tar.gz")
              = Some (mkChecker true "/tmp/splunk_diag_x"
                        "/tmp/splunk_diag_x/diag-host" "")) by reflexivity.
  split; [exact H|].
  exact (proj1 (X28_archive_checker_home archive_host None _ _ H)).
Defined.

(** X29.  In the direct read that follows a permission failure, a file
    under [etc/system/local] comes before every other file: if it can be
    read and extraction from its text alone gives a value, extraction
    from what the resolver returns gives that value (source paths being
    single lines). *)
Theorem X29_system_local_file_wins
  (w : World) (self : Checker) (config_file target_stanza target_setting : string)
  (first_path content v : string) (more : list string) :
  glob_glob w
    (path_join (splunk_home self) ["etc"; "system"; "local"; config_file ++ ".conf"])
  = first_path :: more ->
  Forall (fun p => one_line p = true) (alt_config_paths w self config_file) ->
  readable w first_path = true ->
  read_text w first_path = Some content ->
  parse_btool_output content target_stanza target_setting = Some v ->
  parse_btool_output (_try_alternative_config_access w self config_file)
    target_stanza target_setting = Some v.
Proof.
  intros Hglob Hone Hr Ht Hv.
  unfold parse_btool_output at 1. unfold _try_alternative_config_access.
  rewrite scan_split_join.
  etransitivity;
    [exact (scan_without_source_lines target_stanza target_setting w false _
              Hone None [])|].
  unfold alt_config_paths, alt_config_patterns. cbn [flat_map]. rewrite Hglob.
  cbn [app flat_map]. unfold content_lines at 1. rewrite Hr, Ht.
  rewrite ?app_nil_r, <- ?app_assoc. apply scan_prefix_some. exact Hv.
Qed.

Lemma X29_system_local_file_witness :
  glob_glob denied_world
    (path_join (splunk_home live_checker)
       ["etc"; "system"; "local"; "server" ++ ".conf"])
  = ["/opt/splunk/etc/system/local/server.conf"]
  /\ run_btool_command denied_world live_checker "server" "httpServer"
     = Ok (_try_alternative_config_access denied_world live_checker "server")
  /\ parse_btool_output (_try_alternative_config_access denied_world live_checker "server")
       "httpServer" "busyKeepAliveIdleTimeout" = Some "60".
Proof.
  assert (H : glob_glob denied_world
                (path_join (splunk_home live_checker)
                   ["etc"; "system"; "local"; "server" ++ ".conf"])
              = ["/opt/splunk/etc/system/local/server.conf"]) by reflexivity.
  split; [exact H|]. split; [reflexivity|].
  apply (X29_system_local_file_wins denied_world live_checker "server"
           "httpServer" "busyKeepAliveIdleTimeout" _
           (join nl ["[httpServer]"; "busyKeepAliveIdleTimeout = 60"]) "60" _ H).
  - repeat constructor.
  - reflexivity.
  - reflexivity.
  - reflexivity.
Defined.
